(** * sf-meta-go: resolving a metadata file to its Setup URL

    A shallow embedding of [src/OpenMetadataHandler.ts] and [src/Utils.ts]
    (the command classes under [src/commands/meta] only call [go] and turn a
    thrown exception into a result record).

    Modelling choices.
    - A JavaScript string is a [string]: a sequence of code units, with one
      [ascii] standing for one code unit.  The program only measures, cuts,
      compares and concatenates strings, which is insensitive to the width of
      a code unit.
    - A JavaScript value that may be [undefined] (an array element read by
      index, the value returned by such a read) is an [option string];
      [None] is [undefined].
    - Array indices and lengths are [Z], so that [a[a.length - 2]] on a short
      array reads a negative index, as the program does.
    - An [async] function is a computation in the monad [M]: it may throw
      (a rejected promise) and it records, in order, the catalog queries and
      the shell commands it issues.  The org and the host (node built-ins)
      are parameters: records of functions.                                  *)

From Stdlib Require Import String Ascii List Bool Arith ZArith Lia.
Import ListNotations.
Local Open Scope string_scope.
Local Open Scope Z_scope.

(* ------------------------------------------------------------------------- *)
(** ** JavaScript string and array primitives used by the program            *)
(* ------------------------------------------------------------------------- *)

Module JS.

(** [s.length] *)
Definition strlen (s : string) : Z := Z.of_nat (String.length s).

(** [a.length] *)
Definition len {A : Type} (a : list A) : Z := Z.of_nat (List.length a).

(** [a[i]]: [undefined] outside the array. *)
Definition item {A : Type} (a : list A) (i : Z) : option A :=
  if i <? 0 then None else nth_error a (Z.to_nat i).

(** A value interpolated in a template literal: [undefined] prints as the
    word. *)
Definition tpl (v : option string) : string :=
  match v with
  | Some s => s
  | None => "undefined"
  end.

Definition clamp (n : Z) (i : Z) : Z := Z.max 0 (Z.min i n).

(** [s.substring(start, end)]: both ends are clamped to [0 .. s.length] and
    swapped when out of order. *)
Definition substring (s : string) (start end_ : Z) : string :=
  let a := clamp (strlen s) start in
  let b := clamp (strlen s) end_ in
  let lo := Z.min a b in
  let hi := Z.max a b in
  String.substring (Z.to_nat lo) (Z.to_nat (hi - lo)) s.

(** [s.endsWith(suffix)] *)
Definition endsWith (s suffix : string) : bool :=
  (strlen suffix <=? strlen s)
  && String.eqb (substring s (strlen s - strlen suffix) (strlen s)) suffix.

(** The scan of [s.split(sep)] for a non-empty [sep]: [skip] counts the code
    units of a separator that was just matched and is still to be passed
    over; segments are cut at the leftmost matches, which never overlap. *)
Fixpoint split_from (sep : string) (skip : nat) (s : string) : list string :=
  match s with
  | EmptyString => [EmptyString]
  | String c s' =>
      match skip with
      | S k => split_from sep k s'
      | O =>
          if String.prefix sep s
          then EmptyString :: split_from sep (String.length sep - 1) s'
          else match split_from sep 0 s' with
               | seg :: segs => String c seg :: segs
               | [] => [String c EmptyString]
               end
      end
  end.

(** [s.split(sep)]; with the empty separator the string falls apart into its
    code units. *)
Definition split (s sep : string) : list string :=
  match sep with
  | EmptyString => map (fun c => String c EmptyString) (list_ascii_of_string s)
  | _ => split_from sep 0 s
  end.

(** [a.join(sep)], used to state what [split] does. *)
Fixpoint join (sep : string) (a : list string) : string :=
  match a with
  | [] => EmptyString
  | [x] => x
  | x :: rest => x ++ sep ++ join sep rest
  end.

(** [s.includes(sub)], used to state what [split] does. *)
Fixpoint includes (s sub : string) : bool :=
  match s with
  | EmptyString => String.prefix sub EmptyString
  | String _ s' => String.prefix sub s || includes s' sub
  end.

End JS.

(* ------------------------------------------------------------------------- *)
(** ** The org, the host and the effects                                     *)
(* ------------------------------------------------------------------------- *)

(** What the program reads of a catalog record. *)
Record SRecord : Type := mkRecord {
  Id : string;
  EntityDefinitionId : string
}.

(** The authenticated connection: the org's base URL, the Tooling API lookup
    [conn.tooling.sobject(name).find(conditions).execute()] and the SOQL
    query [conn.query(soql)].  A condition may carry [undefined]. *)
Record Connection : Type := mkConnection {
  instanceUrl : string;
  tooling_find : string -> list (string * option string) -> list SRecord;
  query : string -> list SRecord
}.

(** [path.ParsedPath], restricted to the two fields the program reads. *)
Record ParsedPath : Type := mkParsedPath {
  dir : string;
  base : string
}.

Inductive Exception : Type :=
  | Error (message : string)
  | TypeError
  | URIError.

(** The node built-ins the program calls. [decodeURIComponent] answers [None]
    where the built-in throws [URIError]; [exec_result] answers [Some e] where
    the spawned command makes [execPromise] reject with [e]. *)
Record Host : Type := mkHost {
  path_sep : string;
  path_parse : string -> ParsedPath;
  process_platform : string;
  decodeURIComponent : string -> option string;
  exec_result : string -> option Exception
}.

Inductive Event : Type :=
  | ToolingFind (sobject : string) (conditions : list (string * option string))
  | Query (soql : string)
  | Exec (command : string).

(** What the org answers to a query event. *)
Definition response (conn : Connection) (ev : Event) : list SRecord :=
  match ev with
  | ToolingFind sobject conditions => tooling_find conn sobject conditions
  | Query soql => query conn soql
  | Exec _ => []
  end.

Definition isExec (ev : Event) : bool :=
  match ev with
  | Exec _ => true
  | _ => false
  end.

(** A computation: its outcome (thrown exception or value) and the events it
    issued, oldest first. *)
Definition M (A : Type) : Type := (Exception + A) * list Event.

Definition ret {A : Type} (a : A) : M A := (inr a, []).

Definition throw {A : Type} (e : Exception) : M A := (inl e, []).

Definition emit (ev : Event) : M unit := (inr tt, [ev]).

Definition bind {A B : Type} (m : M A) (f : A -> M B) : M B :=
  match m with
  | (inl e, evs) => (inl e, evs)
  | (inr a, evs) => let (r, evs') := f a in (r, (evs ++ evs')%list)
  end.

Declare Scope js_scope.
Delimit Scope js_scope with js.
Notation "x <- m ;; k" := (bind m (fun x => k))
  (at level 61, m at next level, right associativity) : js_scope.
Notation "m ;;; k" := (bind m (fun _ => k))
  (at level 61, right associativity) : js_scope.
Local Open Scope js_scope.

Definition outcome {A : Type} (m : M A) : Exception + A := fst m.

Definition issued {A : Type} (m : M A) : list Event := snd m.

(** A promise: the call has run up to its first suspension, so its events are
    issued; its settlement is kept as a value and only thrown when awaited. *)
Definition Promise (A : Type) : Type := Exception + A.

Definition start {A : Type} (m : M A) : M (Promise A) := (inr (fst m), snd m).

Definition await {A : Type} (p : Promise A) : M A :=
  match p with
  | inl e => throw e
  | inr a => ret a
  end.

(** [await Promise.all([p, q])]: both values, or the rejection.  (Of the
    promises the program joins only the first one can reject.) *)
Definition promise_all {A B : Type} (p : Promise A) (q : Promise B) : M (A * B) :=
  match p, q with
  | inl e, _ => throw e
  | inr _, inl e => throw e
  | inr a, inr b => ret (a, b)
  end.

(** Calling a string method on a value that may be [undefined]. *)
Definition receiver {A : Type} (v : option string) (f : string -> A) : M A :=
  match v with
  | None => throw TypeError
  | Some s => ret (f s)
  end.

Definition find (conn : Connection) (sobject : string)
    (conditions : list (string * option string)) : M (list SRecord) :=
  emit (ToolingFind sobject conditions) ;;;
  ret (tooling_find conn sobject conditions).

Definition soql_query (conn : Connection) (soql : string) : M (list SRecord) :=
  emit (Query soql) ;;;
  ret (query conn soql).

Definition execPromise (host : Host) (command : string) : M unit :=
  emit (Exec command) ;;;
  match exec_result host command with
  | Some e => throw e
  | None => ret tt
  end.

(* ------------------------------------------------------------------------- *)
(** ** Utils.ts                                                              *)
(* ------------------------------------------------------------------------- *)

Module Utils.

Definition isStandardField (apiName : string) : bool :=
  negb (JS.endsWith apiName "__c").

Definition isCustomMetadata (apiName : string) : bool :=
  JS.endsWith apiName "__mdt".

Definition isPlatformEvent (apiName : string) : bool :=
  JS.endsWith apiName "__e".

Definition isStandardObject (apiName : string) : bool :=
  negb (JS.endsWith apiName "__c" || isCustomMetadata apiName || isPlatformEvent apiName).

Definition getObjectFieldDeveloperName (fileName : string) : option string :=
  let fieldSplitted := JS.split fileName "__" in
  if JS.len fieldSplitted >? 2 then JS.item fieldSplitted 1
  else JS.item fieldSplitted 0.

Definition isWindows (host : Host) : bool :=
  String.eqb (process_platform host) "win32".

End Utils.

(* ------------------------------------------------------------------------- *)
(** ** OpenMetadataHandler.ts                                                *)
(* ------------------------------------------------------------------------- *)

Module OpenMetadataHandler.

(** The subclasses of [Metadata], one per supported metadata type. *)
Inductive ResolverVariant : Type :=
  | Flow
  | Field
  | ValidationRule
  | FlexiPage
  | Profile
  | PermissionSet
  | PermissionSetGroup
  | ApexClass
  | ApexTrigger
  | RecordType
  | PageLayout
  | SObject
  | GlobalValueSet
  | QuickAction
  | ApprovalProcess.

(** An instance: its class and the four fields set by the constructor. *)
Record Metadata : Type := mkMetadata {
  variant : ResolverVariant;
  conn : Connection;
  extension : string;
  pathParsed : ParsedPath;
  metadataApiName : string
}.

(** [new C(conn, extension, pathParsed)] for a subclass [C]. *)
Definition new (C : ResolverVariant) (conn : Connection) (extension : string)
    (pathParsed : ParsedPath) : Metadata :=
  {| variant := C;
     conn := conn;
     extension := extension;
     pathParsed := pathParsed;
     metadataApiName :=
       JS.substring (base pathParsed) 0
         (JS.strlen (base pathParsed) - (JS.strlen extension + 1)) |}.

Definition getObjectId (conn : Connection) (objectName : option string) : M string :=
  developerName <- receiver objectName Utils.getObjectFieldDeveloperName ;;
  records <- find conn "CustomObject" [("DeveloperName", developerName)] ;;
  match records with
  | [] => throw (Error ("Object not found for " ++ JS.tpl objectName))
  | r :: _ => ret (Id r)
  end.

Definition getExtension (pathParsedBase : string) : option string :=
  let fileNameSplitted := JS.split pathParsedBase "." in
  let n := JS.len fileNameSplitted in
  if n >? 2
  then Some (JS.tpl (JS.item fileNameSplitted (n - 2)) ++ "."
             ++ JS.tpl (JS.item fileNameSplitted (n - 1)))
  else JS.item fileNameSplitted (n - 1).

(** [Factory.create].  [conn] and [pathParsed] are objects, hence truthy; the
    token is falsy when it is [undefined] or the empty string. *)
Definition create (conn : Connection) (extension : option string)
    (pathParsed : ParsedPath) : Exception + Metadata :=
  match extension with
  | None => inl (Error "Invalid parameters")
  | Some EmptyString => inl (Error "Invalid parameters")
  | Some extension =>
      if String.eqb extension "flow-meta.xml" then
        inr (new Flow conn extension pathParsed)
      else if String.eqb extension "field-meta.xml" then
        inr (new Field conn extension pathParsed)
      else if String.eqb extension "validationRule-meta.xml" then
        inr (new ValidationRule conn extension pathParsed)
      else if String.eqb extension "flexipage-meta.xml" then
        inr (new FlexiPage conn extension pathParsed)
      else if String.eqb extension "profile-meta.xml" then
        inr (new Profile conn extension pathParsed)
      else if String.eqb extension "permissionset-meta.xml" then
        inr (new PermissionSet conn extension pathParsed)
      else if String.eqb extension "permissionsetgroup-meta.xml" then
        inr (new PermissionSetGroup conn extension pathParsed)
      else if String.eqb extension "cls" then
        inr (new ApexClass conn extension pathParsed)
      else if String.eqb extension "trigger" then
        inr (new ApexTrigger conn extension pathParsed)
      else if String.eqb extension "recordType-meta.xml" then
        inr (new RecordType conn extension pathParsed)
      else if String.eqb extension "layout-meta.xml" then
        inr (new PageLayout conn extension pathParsed)
      else if String.eqb extension "object-meta.xml" then
        inr (new SObject conn extension pathParsed)
      else if String.eqb extension "globalValueSet-meta.xml" then
        inr (new GlobalValueSet conn extension pathParsed)
      else if String.eqb extension "quickAction-meta.xml" then
        inr (new QuickAction conn extension pathParsed)
      else if String.eqb extension "approvalProcess-meta.xml" then
        inr (new ApprovalProcess conn extension pathParsed)
      else inl (Error "Unsupported metadata type")
  end.

(** The resolvers that look one record up by the API name all have this
    shape: Tooling API lookup on [sobject] by [field], an error naming
    [label], a URL made from the first record. *)
Definition lookupByName (this : Metadata) (sobject field label : string)
    (url : SRecord -> string) : M string :=
  records <- find (conn this) sobject [(field, Some (metadataApiName this))] ;;
  match records with
  | [] => throw (Error (label ++ " not found for " ++ metadataApiName this))
  | r :: _ => ret (url r)
  end.

Definition ApprovalProcess_getUrl (this : Metadata) : M string :=
  res <- soql_query (conn this)
           ("SELECT Id FROM ProcessDefinition WHERE DeveloperName = '"
            ++ JS.tpl (JS.item (JS.split (metadataApiName this) ".") 1)
            ++ "' AND Type = 'Approval'") ;;
  match res with
  | [] => throw (Error ("Approval process not found for " ++ metadataApiName this))
  | r :: _ => ret ("lightning/setup/ApprovalProcesses/page?address=%2F" ++ Id r)
  end.

Definition SObject_getUrl (this : Metadata) : M string :=
  objectId <- getObjectId (conn this) (Some (metadataApiName this)) ;;
  if Utils.isCustomMetadata (metadataApiName this) then
    ret ("lightning/setup/CustomMetadata/page?address=%2F" ++ objectId
         ++ "%3Fsetupid%3DCustomMetadata")
  else if Utils.isPlatformEvent (metadataApiName this) then
    ret ("lightning/setup/EventObjects/page?address=%2F" ++ objectId
         ++ "%3Fsetupid%3DEventObjects")
  else
    ret ("lightning/setup/ObjectManager/" ++ objectId ++ "/Details/view").

Definition GlobalValueSet_getUrl (this : Metadata) : M string :=
  lookupByName this "GlobalValueSet" "DeveloperName" "GlobalValueSet"
    (fun r => "lightning/setup/Picklists/page?address=%2F" ++ Id r).

Definition QuickAction_getUrl (this : Metadata) : M string :=
  let splitObjectNameLayoutName := JS.split (metadataApiName this) "." in
  let objectName := JS.item splitObjectNameLayoutName 0 in
  let quickActionName := JS.item splitObjectNameLayoutName 1 in
  objIdPromise <- start (getObjectId (conn this) objectName) ;;
  quickActionPromise <-
    start (find (conn this) "QuickActionDefinition" [("DeveloperName", quickActionName)]) ;;
  both <- promise_all objIdPromise quickActionPromise ;;
  let (objectId, quickActionRecords) := both in
  match quickActionRecords with
  | [] => throw (Error ("QuickAction not found for " ++ JS.tpl quickActionName))
  | r :: _ =>
      ret ("lightning/setup/ObjectManager/" ++ objectId ++ "/ButtonsLinksActions/"
           ++ Id r ++ "/view")
  end.

(** [decodeURIComponent(v)]: the argument is first turned into a string. *)
Definition decode (host : Host) (v : option string) : M string :=
  match decodeURIComponent host (JS.tpl v) with
  | Some s => ret s
  | None => throw URIError
  end.

Definition PageLayout_getUrl (host : Host) (this : Metadata) : M string :=
  let splitObjectNameLayoutName := JS.split (metadataApiName this) "-" in
  let objectName := JS.item splitObjectNameLayoutName 0 in
  let layoutName := JS.item splitObjectNameLayoutName 1 in
  objIdPromise <- start (getObjectId (conn this) objectName) ;;
  name <- decode host layoutName ;;
  layoutPromise <- start (find (conn this) "Layout" [("Name", Some name)]) ;;
  both <- promise_all objIdPromise layoutPromise ;;
  let (objectId, layoutRecords) := both in
  match layoutRecords with
  | [] => throw (Error ("Layout not found for " ++ JS.tpl layoutName))
  | r :: _ =>
      ret ("lightning/setup/ObjectManager/" ++ objectId ++ "/PageLayouts/"
           ++ Id r ++ "/view")
  end.

(** [arrayPath[arrayPath.length - 2]] of the directory split on [path.sep]. *)
Definition objectFolderName (host : Host) (pathParsed : ParsedPath) : option string :=
  let arrayPath := JS.split (dir pathParsed) (path_sep host) in
  JS.item arrayPath (JS.len arrayPath - 2).

Definition RecordType_getUrl (host : Host) (this : Metadata) : M string :=
  let objectFolderName := objectFolderName host (pathParsed this) in
  objIdPromise <- start (getObjectId (conn this) objectFolderName) ;;
  recordTypePromise <-
    start (soql_query (conn this)
             ("SELECT Id, DeveloperName FROM RecordType WHERE DeveloperName = '"
              ++ metadataApiName this ++ "'")) ;;
  both <- promise_all objIdPromise recordTypePromise ;;
  let (objectId, recordTypeResult) := both in
  match recordTypeResult with
  | [] => throw (Error ("RecordType not found for " ++ metadataApiName this))
  | r :: _ =>
      ret ("lightning/setup/ObjectManager/" ++ objectId ++ "/RecordTypes/"
           ++ Id r ++ "/view")
  end.

Definition Flow_getUrl (this : Metadata) : M string :=
  lookupByName this "FlowDefinition" "DeveloperName" "Flow"
    (fun r => "lightning/setup/Flows/page?address=%2F" ++ Id r).

Definition ValidationRule_getUrl (this : Metadata) : M string :=
  lookupByName this "ValidationRule" "ValidationName" "ValidationRule"
    (fun r => "lightning/setup/ObjectManager/" ++ EntityDefinitionId r
              ++ "/ValidationRules/" ++ Id r ++ "/view").

Definition FlexiPage_getUrl (this : Metadata) : M string :=
  lookupByName this "FlexiPage" "DeveloperName" "FlexiPage"
    (fun r => "visualEditor/appBuilder.app?id=" ++ Id r).

Definition Profile_getUrl (this : Metadata) : M string :=
  lookupByName this "Profile" "Name" "Profile"
    (fun r => "lightning/setup/EnhancedProfiles/page?address=%2F" ++ Id r).

Definition PermissionSet_getUrl (this : Metadata) : M string :=
  lookupByName this "PermissionSet" "Name" "PermissionSet"
    (fun r => "lightning/setup/PermSets/page?address=%2F" ++ Id r).

Definition PermissionSetGroup_getUrl (this : Metadata) : M string :=
  lookupByName this "PermissionSetGroup" "DeveloperName" "PermissionSetGroup"
    (fun r => "lightning/setup/PermSetGroups/page?address=%2F" ++ Id r).

Definition ApexClass_getUrl (this : Metadata) : M string :=
  lookupByName this "ApexClass" "Name" "ApexClass"
    (fun r => "lightning/setup/ApexClasses/page?address=%2F" ++ Id r).

Definition ApexTrigger_getUrl (this : Metadata) : M string :=
  lookupByName this "ApexTrigger" "Name" "ApexTrigger"
    (fun r => "lightning/setup/ApexTriggers/page?address=%2F" ++ Id r).

(** [Field.getUrl].  The method overwrites [this.metadataApiName]; the
    instance is not used again, so the new value is a local here. *)
Definition Field_getUrl (host : Host) (this : Metadata) : M string :=
  let objectFolderName := objectFolderName host (pathParsed this) in
  if Utils.isStandardField (metadataApiName this) then
    let metadataApiName' :=
      if JS.endsWith (metadataApiName this) "Id"
      then JS.substring (metadataApiName this) 0 (JS.strlen (metadataApiName this) - 2)
      else metadataApiName this in
    ret ("lightning/setup/ObjectManager/" ++ JS.tpl objectFolderName
         ++ "/FieldsAndRelationships/" ++ metadataApiName' ++ "/view")
  else
    let metadataApiName' := Utils.getObjectFieldDeveloperName (metadataApiName this) in
    objectId <- getObjectId (conn this) objectFolderName ;;
    fieldRecords <-
      find (conn this) "CustomField"
        [("DeveloperName", metadataApiName'); ("TableEnumOrId", Some objectId)] ;;
    match fieldRecords with
    | [] => throw (Error ("Field not found for " ++ JS.tpl metadataApiName'))
    | fieldData :: _ =>
        customMetadata <- receiver objectFolderName Utils.isCustomMetadata ;;
        if customMetadata : bool then
          ret ("lightning/setup/CustomMetadata/page?address=%2F" ++ Id fieldData
               ++ "%3Fsetupid%3DCustomMetadata")
        else
          platformEvent <- receiver objectFolderName Utils.isPlatformEvent ;;
          if platformEvent : bool then
            ret ("lightning/setup/EventObjects/page?address=%2F" ++ Id fieldData
                 ++ "%3Fsetupid%3DEventObjects")
          else
            ret ("lightning/setup/ObjectManager/" ++ objectId
                 ++ "/FieldsAndRelationships/" ++ Id fieldData ++ "/view")
    end.

(** [metadata.getUrl()]: the method of the instance's class. *)
Definition getUrl (host : Host) (this : Metadata) : M string :=
  match variant this with
  | Flow => Flow_getUrl this
  | Field => Field_getUrl host this
  | ValidationRule => ValidationRule_getUrl this
  | FlexiPage => FlexiPage_getUrl this
  | Profile => Profile_getUrl this
  | PermissionSet => PermissionSet_getUrl this
  | PermissionSetGroup => PermissionSetGroup_getUrl this
  | ApexClass => ApexClass_getUrl this
  | ApexTrigger => ApexTrigger_getUrl this
  | RecordType => RecordType_getUrl host this
  | PageLayout => PageLayout_getUrl host this
  | SObject => SObject_getUrl this
  | GlobalValueSet => GlobalValueSet_getUrl this
  | QuickAction => QuickAction_getUrl this
  | ApprovalProcess => ApprovalProcess_getUrl this
  end.

(** A synchronous call that may throw. *)
Definition attempt {A : Type} (r : Exception + A) : M A := (r, []).

Definition go (host : Host) (conn : Connection) (pathString : string) : M unit :=
  let pathParsed := path_parse host pathString in
  let extension := getExtension (base pathParsed) in
  metadata <- attempt (create conn extension pathParsed) ;;
  url <- getUrl host metadata ;;
  let completeUrl := instanceUrl conn ++ "/" ++ url in
  if Utils.isWindows host then execPromise host ("start " ++ completeUrl)
  else execPromise host ("open " ++ completeUrl).

End OpenMetadataHandler.

(* ------------------------------------------------------------------------- *)
(** ** commands/meta/go.ts                                                   *)
(* ------------------------------------------------------------------------- *)

Module MetaGo.

(** [MetaGoResult]; [error] is absent on success. *)
Record MetaGoResult : Type := mkMetaGoResult {
  isSuccess : bool;
  error : option string
}.

(** The [message] the runtime gives to the exceptions it raises itself. *)
Record RuntimeMessages : Type := mkRuntimeMessages {
  typeErrorMessage : string;
  uriErrorMessage : string
}.

(** [exception.message]; every exception of the program is an instance of
    [Error]. *)
Definition message (rt : RuntimeMessages) (exception : Exception) : string :=
  match exception with
  | Error m => m
  | TypeError => typeErrorMessage rt
  | URIError => uriErrorMessage rt
  end.

(** What the command does to the outside: the events of [go] and the lines
    it logs. *)
Inductive Output : Type :=
  | Effect (ev : Event)
  | Log (line : string).

(** [MetaGo.run], from the parsed flags on: [conn] is the connection of the
    target org and [metadata] the file flag.  The method does not throw; it
    returns its result together with what it did. *)
Definition run (host : Host) (rt : RuntimeMessages) (conn : Connection)
    (metadata : string) : MetaGoResult * list Output :=
  match OpenMetadataHandler.go host conn metadata with
  | (inr _, evs) => ({| isSuccess := true; error := None |}, map Effect evs)
  | (inl exception, evs) =>
      let err := message rt exception in
      ({| isSuccess := false; error := Some err |},
       (map Effect evs ++ [Log ("Error to open Metadata: " ++ err)])%list)
  end.

End MetaGo.

(* ------------------------------------------------------------------------- *)
(** ** Definitions used to state the properties                              *)
(* ------------------------------------------------------------------------- *)

Import OpenMetadataHandler.

(** The dispatch table as the specification gives it: the fifteen registered
    tokens, each with its resolver variant. *)
Definition registeredTokens : list (string * ResolverVariant) :=
  [ ("flow-meta.xml", Flow);
    ("field-meta.xml", Field);
    ("validationRule-meta.xml", ValidationRule);
    ("flexipage-meta.xml", FlexiPage);
    ("profile-meta.xml", Profile);
    ("permissionset-meta.xml", PermissionSet);
    ("permissionsetgroup-meta.xml", PermissionSetGroup);
    ("cls", ApexClass);
    ("trigger", ApexTrigger);
    ("recordType-meta.xml", RecordType);
    ("layout-meta.xml", PageLayout);
    ("object-meta.xml", SObject);
    ("globalValueSet-meta.xml", GlobalValueSet);
    ("quickAction-meta.xml", QuickAction);
    ("approvalProcess-meta.xml", ApprovalProcess) ].

Definition registered (token : string) : Prop :=
  In token (map fst registeredTokens).

(** The API name the constructor derives from a base filename and a token. *)
Definition apiNameOf (pathParsedBase token : string) : string :=
  metadataApiName (new Flow (mkConnection "" (fun _ _ => []) (fun _ => []))
                     token (mkParsedPath "" pathParsedBase)).

(** Resolution: everything [go] does before it launches the browser. *)
Definition resolve (host : Host) (conn : Connection) (pathString : string) : M string :=
  let pathParsed := path_parse host pathString in
  metadata <- attempt (create conn (getExtension (base pathParsed)) pathParsed) ;;
  getUrl host metadata.

(** The org that answers every query with at most the first of the records
    [c] answers with. *)
Definition firstOnly (c : Connection) : Connection :=
  {| instanceUrl := instanceUrl c;
     tooling_find := fun sobject conditions => firstn 1 (tooling_find c sobject conditions);
     query := fun soql => firstn 1 (query c soql) |}.

Definition withConn (c : Connection) (this : Metadata) : Metadata :=
  {| variant := variant this;
     conn := c;
     extension := extension this;
     pathParsed := pathParsed this;
     metadataApiName := metadataApiName this |}.

(** A lookup a resolver depends on: the query it sends, and the kind of
    entity and the name that its "not found" error gives. *)
Record Lookup : Type := mkLookup {
  asked : Event;
  kind : string;
  searched : string
}.

(** The custom object of a name: searched by the developer name, reported
    under the name. *)
Definition objectLookup (objectName : string) : Lookup :=
  mkLookup
    (ToolingFind "CustomObject"
       [("DeveloperName", Utils.getObjectFieldDeveloperName objectName)])
    "Object" objectName.

(** A record of a Tooling API catalog whose field [field] is the API name. *)
Definition nameLookup (sobject field label apiName : string) : Lookup :=
  mkLookup (ToolingFind sobject [(field, Some apiName)]) label apiName.

(** The lookups each resolver depends on, in the order in which a missing
    record is reported, as the table of resolvers in the specification lists
    them.  The field lookup is keyed by the id of the first object record,
    and is listed once the object is found. *)
Definition lookups (host : Host) (this : Metadata) : list Lookup :=
  let apiName := metadataApiName this in
  let folder := JS.tpl (objectFolderName host (pathParsed this)) in
  match variant this with
  | Flow => [nameLookup "FlowDefinition" "DeveloperName" "Flow" apiName]
  | ValidationRule => [nameLookup "ValidationRule" "ValidationName" "ValidationRule" apiName]
  | FlexiPage => [nameLookup "FlexiPage" "DeveloperName" "FlexiPage" apiName]
  | Profile => [nameLookup "Profile" "Name" "Profile" apiName]
  | PermissionSet => [nameLookup "PermissionSet" "Name" "PermissionSet" apiName]
  | PermissionSetGroup =>
      [nameLookup "PermissionSetGroup" "DeveloperName" "PermissionSetGroup" apiName]
  | ApexClass => [nameLookup "ApexClass" "Name" "ApexClass" apiName]
  | ApexTrigger => [nameLookup "ApexTrigger" "Name" "ApexTrigger" apiName]
  | GlobalValueSet => [nameLookup "GlobalValueSet" "DeveloperName" "GlobalValueSet" apiName]
  | SObject => [objectLookup apiName]
  | ApprovalProcess =>
      [mkLookup
         (Query ("SELECT Id FROM ProcessDefinition WHERE DeveloperName = '"
                 ++ JS.tpl (JS.item (JS.split apiName ".") 1)
                 ++ "' AND Type = 'Approval'"))
         "Approval process" apiName]
  | RecordType =>
      [objectLookup folder;
       mkLookup
         (Query ("SELECT Id, DeveloperName FROM RecordType WHERE DeveloperName = '"
                 ++ apiName ++ "'"))
         "RecordType" apiName]
  | QuickAction =>
      [objectLookup (JS.tpl (JS.item (JS.split apiName ".") 0));
       mkLookup
         (ToolingFind "QuickActionDefinition"
            [("DeveloperName", JS.item (JS.split apiName ".") 1)])
         "QuickAction" (JS.tpl (JS.item (JS.split apiName ".") 1))]
  | PageLayout =>
      [objectLookup (JS.tpl (JS.item (JS.split apiName "-") 0));
       mkLookup
         (ToolingFind "Layout"
            [("Name",
              decodeURIComponent host (JS.tpl (JS.item (JS.split apiName "-") 1)))])
         "Layout" (JS.tpl (JS.item (JS.split apiName "-") 1))]
  | Field =>
      if Utils.isStandardField apiName then []
      else
        objectLookup folder
        :: match response (conn this) (asked (objectLookup folder)) with
           | [] => []
           | object :: _ =>
               [mkLookup
                  (ToolingFind "CustomField"
                     [("DeveloperName", Utils.getObjectFieldDeveloperName apiName);
                      ("TableEnumOrId", Some (Id object))])
                  "Field" (JS.tpl (Utils.getObjectFieldDeveloperName apiName))]
           end
  end.

Definition unanswered (c : Connection) (l : Lookup) : bool :=
  match response c (asked l) with
  | [] => true
  | _ :: _ => false
  end.

(** The first of the lookups that the org answers with zero records. *)
Definition firstMissing (c : Connection) (ls : list Lookup) : option Lookup :=
  List.find (unanswered c) ls.

(** [part] occurs in [s]. *)
Definition mentions (s part : string) : Prop :=
  exists before after, s = before ++ part ++ after.

(** The file suits its resolver: a field or a record type lies in an object
    folder (its directory has a second-to-last segment), and the name of a
    layout can be URL-decoded.  Elsewhere the runtime may stop the resolver
    with a [TypeError] or a [URIError] before any answer is read. *)
Definition wellFormed (host : Host) (this : Metadata) : Prop :=
  match variant this with
  | Field | RecordType => objectFolderName host (pathParsed this) <> None
  | PageLayout =>
      decodeURIComponent host (JS.tpl (JS.item (JS.split (metadataApiName this) "-") 1))
      <> None
  | _ => True
  end.

Definition isQuery (ev : Event) : bool := negb (isExec ev).

(** *** A concrete host and concrete orgs, to run the program on examples *)

Definition hexDigit (c : ascii) : option nat :=
  let n := nat_of_ascii c in
  if ((48 <=? n) && (n <=? 57))%nat then Some (n - 48)%nat
  else if ((65 <=? n) && (n <=? 70))%nat then Some (n - 55)%nat
  else if ((97 <=? n) && (n <=? 102))%nat then Some (n - 87)%nat
  else None.

(** Percent-decoding of the escapes of ASCII octets; a malformed escape is
    rejected, and so is the escape of an octet above 127 (the built-in goes on
    to read a UTF-8 sequence there). *)
Fixpoint percentDecode (s : string) : option string :=
  match s with
  | EmptyString => Some EmptyString
  | String "%" (String h (String l rest)) =>
      match hexDigit h, hexDigit l with
      | Some a, Some b =>
          if (16 * a + b <? 128)%nat
          then option_map (String (ascii_of_nat (16 * a + b))) (percentDecode rest)
          else None
      | _, _ => None
      end
  | String "%" _ => None
  | String c rest => option_map (String c) (percentDecode rest)
  end.

(** [path.posix.parse] on a relative path that does not end in a slash. *)
Definition posixParse (p : string) : ParsedPath :=
  let segments := JS.split p "/" in
  {| dir := JS.join "/" (removelast segments); base := last segments EmptyString |}.

Definition posixHost : Host :=
  {| path_sep := "/";
     path_parse := posixParse;
     process_platform := "linux";
     decodeURIComponent := percentDecode;
     exec_result := fun _ => None |}.

(** [path.win32.parse] on a relative path written with backslashes that does
    not end in one. *)
Definition win32Parse (p : string) : ParsedPath :=
  let segments := JS.split p "\" in
  {| dir := JS.join "\" (removelast segments); base := last segments EmptyString |}.

Definition windowsHost : Host :=
  {| path_sep := "\";
     path_parse := win32Parse;
     process_platform := "win32";
     decodeURIComponent := percentDecode;
     exec_result := fun _ => None |}.

(** An org in which nothing is found. *)
Definition emptyOrg : Connection :=
  {| instanceUrl := "https://acme.my.salesforce.com";
     tooling_find := fun _ _ => [];
     query := fun _ => [] |}.

(** An org that answers every query with two records. *)
Definition sampleOrg : Connection :=
  {| instanceUrl := "https://acme.my.salesforce.com";
     tooling_find := fun sobject _ =>
       if String.eqb sobject "CustomObject"
       then [mkRecord "01I5g000000AAAA" ""; mkRecord "01I5g000000BBBB" ""]
       else [mkRecord "00N5g000000CCCC" "01I5g000000DDDD"; mkRecord "00N5g000000EEEE" ""];
     query := fun _ => [mkRecord "04a5g000000FFFF" ""; mkRecord "04a5g000000GGGG" ""] |}.

(** A host on which the command that opens the browser fails. *)
Definition headlessHost : Host :=
  {| path_sep := "/";
     path_parse := posixParse;
     process_platform := "linux";
     decodeURIComponent := percentDecode;
     exec_result := fun command => Some (Error ("Command failed: " ++ command)) |}.

Definition v8Messages : MetaGo.RuntimeMessages :=
  {| MetaGo.typeErrorMessage := "Cannot read properties of undefined (reading 'split')";
     MetaGo.uriErrorMessage := "URI malformed" |}.

(** Parsed paths of files of a project, as [posixParse] gives them. *)
Definition customFieldFile : ParsedPath :=
  mkParsedPath "force-app/main/default/objects/Account/fields" "MyField__c.field-meta.xml".

Definition ownerIdFieldFile : ParsedPath :=
  mkParsedPath "force-app/main/default/objects/Account/fields" "OwnerId.field-meta.xml".

Definition idFieldFile : ParsedPath :=
  mkParsedPath "force-app/main/default/objects/Account/fields" "Id.field-meta.xml".

Definition layoutFile : ParsedPath :=
  mkParsedPath "force-app/main/default/layouts"
    "Account-Account %28Marketing%29 Layout.layout-meta.xml".

(** A record-type file that lies in no folder. *)
Definition recordTypeFileInRoot : ParsedPath :=
  mkParsedPath "" "Business.recordType-meta.xml".

(** The layout 'Case Layout - Closed' of the object 'Case'. *)
Definition closedCaseLayoutFile : ParsedPath :=
  mkParsedPath "force-app/main/default/layouts" "Case-Case Layout - Closed.layout-meta.xml".

Definition flowFile : ParsedPath :=
  mkParsedPath "force-app/main/default/flows" "MyFlow.flow-meta.xml".

Definition approvalProcessFile : ParsedPath :=
  mkParsedPath "force-app/main/default/approvalProcesses" "Discount.approvalProcess-meta.xml".

(* ------------------------------------------------------------------------- *)
(** ** Facts about the string primitives                                     *)
(* ------------------------------------------------------------------------- *)

Module JSFacts.

Lemma length_append (x y : string) :
  String.length (x ++ y) = (String.length x + String.length y)%nat.
Proof.
  induction x as [|c x IH]; simpl; [reflexivity | now rewrite IH].
Qed.

Lemma strlen_append (x y : string) : JS.strlen (x ++ y) = JS.strlen x + JS.strlen y.
Proof.
  unfold JS.strlen. rewrite length_append. lia.
Qed.

Lemma strlen_nonneg (s : string) : 0 <= JS.strlen s.
Proof.
  unfold JS.strlen. lia.
Qed.

Lemma take_append (x y : string) :
  String.substring 0 (String.length x) (x ++ y) = x.
Proof.
  induction x as [|c x IH]; simpl.
  - destruct y; reflexivity.
  - now rewrite IH.
Qed.

Lemma drop_append (x y : string) :
  String.substring (String.length x) (String.length y) (x ++ y) = y.
Proof.
  induction x as [|c x IH]; simpl.
  - induction y as [|d y IHy]; simpl; [reflexivity | now rewrite IHy].
  - exact IH.
Qed.

Lemma take_drop (s : string) (k : nat) :
  (k <= String.length s)%nat ->
  s = String.substring 0 k s ++ String.substring k (String.length s - k) s.
Proof.
  revert k. induction s as [|c s IH]; intros k Hk; simpl in *.
  - destruct k; [reflexivity | lia].
  - destruct k as [|k]; simpl.
    + f_equal. clear. induction s as [|d s IHs]; simpl; [reflexivity | now rewrite <- IHs].
    + f_equal. apply IH. lia.
Qed.

(** Cutting a suffix off by its length leaves the rest. *)
Lemma substring_strip (x y : string) (k : Z) :
  k = JS.strlen y ->
  JS.substring (x ++ y) 0 (JS.strlen (x ++ y) - k) = x.
Proof.
  intros ->. unfold JS.substring, JS.clamp. rewrite strlen_append.
  pose proof (strlen_nonneg x). pose proof (strlen_nonneg y).
  replace (Z.min (Z.max 0 (Z.min 0 (JS.strlen x + JS.strlen y)))
             (Z.max 0 (Z.min (JS.strlen x + JS.strlen y - JS.strlen y)
                         (JS.strlen x + JS.strlen y)))) with 0 by lia.
  replace (Z.max (Z.max 0 (Z.min 0 (JS.strlen x + JS.strlen y)))
             (Z.max 0 (Z.min (JS.strlen x + JS.strlen y - JS.strlen y)
                         (JS.strlen x + JS.strlen y))) - 0) with (JS.strlen x) by lia.
  unfold JS.strlen. rewrite Nat2Z.id. apply take_append.
Qed.

(** [endsWith] is "has this suffix". *)
Lemma endsWith_spec (s suffix : string) :
  JS.endsWith s suffix = true <-> exists x, s = x ++ suffix.
Proof.
  unfold JS.endsWith, JS.substring, JS.clamp. split.
  - intros H. apply andb_true_iff in H as [Hlen Heq].
    apply Z.leb_le in Hlen. apply String.eqb_eq in Heq.
    pose proof (strlen_nonneg suffix) as Hs.
    replace (Z.min (Z.max 0 (Z.min (JS.strlen s - JS.strlen suffix) (JS.strlen s)))
               (Z.max 0 (Z.min (JS.strlen s) (JS.strlen s))))
      with (JS.strlen s - JS.strlen suffix) in Heq by lia.
    replace (Z.max (Z.max 0 (Z.min (JS.strlen s - JS.strlen suffix) (JS.strlen s)))
               (Z.max 0 (Z.min (JS.strlen s) (JS.strlen s)))
             - (JS.strlen s - JS.strlen suffix))
      with (JS.strlen suffix) in Heq by lia.
    unfold JS.strlen in *. rewrite <- Nat2Z.inj_sub in Heq by lia.
    rewrite !Nat2Z.id in Heq.
    exists (String.substring 0 (String.length s - String.length suffix) s).
    pose proof (take_drop s (String.length s - String.length suffix)) as Hcut.
    replace (String.length s - (String.length s - String.length suffix))%nat
      with (String.length suffix) in Hcut by lia.
    rewrite Heq in Hcut. apply Hcut. lia.
  - intros [x ->]. rewrite strlen_append.
    pose proof (strlen_nonneg x). pose proof (strlen_nonneg suffix).
    apply andb_true_iff. split; [apply Z.leb_le; lia|].
    replace (Z.min (Z.max 0 (Z.min (JS.strlen x + JS.strlen suffix - JS.strlen suffix)
                               (JS.strlen x + JS.strlen suffix)))
               (Z.max 0 (Z.min (JS.strlen x + JS.strlen suffix)
                           (JS.strlen x + JS.strlen suffix))))
      with (JS.strlen x) by lia.
    replace (Z.max (Z.max 0 (Z.min (JS.strlen x + JS.strlen suffix - JS.strlen suffix)
                               (JS.strlen x + JS.strlen suffix)))
               (Z.max 0 (Z.min (JS.strlen x + JS.strlen suffix)
                           (JS.strlen x + JS.strlen suffix)))
             - JS.strlen x)
      with (JS.strlen suffix) by lia.
    unfold JS.strlen. rewrite !Nat2Z.id. rewrite drop_append. apply String.eqb_refl.
Qed.

Lemma endsWith_false (s suffix : string) :
  JS.endsWith s suffix = false <-> ~ exists x, s = x ++ suffix.
Proof.
  rewrite <- endsWith_spec. destruct (JS.endsWith s suffix); split; congruence.
Qed.

End JSFacts.

Module SplitFacts.

Lemma prefix_inv (sep s : string) :
  String.prefix sep s = true -> exists t, s = sep ++ t.
Proof.
  revert s. induction sep as [|c sep IH]; intros s H.
  - exists s. reflexivity.
  - destruct s as [|d s]; simpl in H; [discriminate|].
    destruct (Ascii.ascii_dec c d) as [->|]; [|discriminate].
    destruct (IH s H) as [t ->]. exists t. reflexivity.
Qed.

Lemma prefix_append (sep t : string) : String.prefix sep (sep ++ t) = true.
Proof.
  induction sep as [|c sep IH]; simpl.
  - destruct t; reflexivity.
  - destruct (Ascii.ascii_dec c c); [exact IH | congruence].
Qed.

Lemma split_from_nonempty (sep : string) (s : string) (k : nat) :
  JS.split_from sep k s <> [].
Proof.
  revert k. induction s as [|c s IH]; intros k; cbn [JS.split_from].
  - discriminate.
  - destruct k; [|apply IH].
    destruct (String.prefix sep (String c s)); [discriminate|].
    destruct (JS.split_from sep 0 s); discriminate.
Qed.

(** Passing over the rest of a matched separator. *)
Lemma split_from_skip (sep u t : string) :
  JS.split_from sep (String.length u) (u ++ t) = JS.split_from sep 0 t.
Proof.
  induction u as [|c u IH]; simpl; [reflexivity | exact IH].
Qed.

Lemma split_from_match (sep t : string) :
  sep <> EmptyString ->
  JS.split_from sep 0 (sep ++ t) = EmptyString :: JS.split_from sep 0 t.
Proof.
  intros Hsep. destruct sep as [|c sep]; [congruence|].
  change (String c sep ++ t) with (String c (sep ++ t)).
  cbn [JS.split_from].
  change (String c (sep ++ t)) with (String c sep ++ t).
  rewrite prefix_append. f_equal.
  cbn [String.length]. rewrite Nat.sub_succ, Nat.sub_0_r. apply split_from_skip.
Qed.

Lemma split_from_no_match (sep : string) (c : ascii) (s : string) :
  String.prefix sep (String c s) = false ->
  exists seg segs,
    JS.split_from sep 0 s = seg :: segs /\
    JS.split_from sep 0 (String c s) = String c seg :: segs.
Proof.
  intros H. cbn [JS.split_from]. rewrite H.
  destruct (JS.split_from sep 0 s) as [|seg segs] eqn:E.
  - now apply split_from_nonempty in E.
  - exists seg, segs. split; reflexivity.
Qed.

Lemma join_cons_char (sep : string) (c : ascii) (seg : string) (segs : list string) :
  JS.join sep (String c seg :: segs) = String c (JS.join sep (seg :: segs)).
Proof.
  destruct segs; reflexivity.
Qed.

Lemma join_cons (sep x : string) (rest : list string) :
  rest <> [] -> JS.join sep (x :: rest) = x ++ sep ++ JS.join sep rest.
Proof.
  destruct rest; [congruence | reflexivity].
Qed.

Lemma append_assoc (x y z : string) : (x ++ y) ++ z = x ++ y ++ z.
Proof.
  induction x as [|c x IH]; simpl; [reflexivity | now rewrite IH].
Qed.

Lemma join_app (sep : string) (a b : list string) :
  a <> [] -> b <> [] -> JS.join sep (a ++ b)%list = JS.join sep a ++ sep ++ JS.join sep b.
Proof.
  intros Ha Hb. induction a as [|x a IH]; [congruence|].
  destruct a as [|y a].
  - simpl. destruct b; [congruence | reflexivity].
  - change ((x :: y :: a) ++ b)%list with (x :: ((y :: a) ++ b))%list.
    rewrite join_cons by discriminate.
    rewrite IH by discriminate.
    rewrite (join_cons sep x (y :: a)) by discriminate.
    now rewrite !append_assoc.
Qed.

(** Joining the segments with the separator gives the string back. *)
Lemma join_split_from (sep : string) (n : nat) :
  sep <> EmptyString ->
  forall s, (String.length s <= n)%nat -> JS.join sep (JS.split_from sep 0 s) = s.
Proof.
  intros Hsep. induction n as [|n IH]; intros s Hlen.
  - destruct s; [reflexivity | simpl in Hlen; lia].
  - destruct s as [|c s]; [reflexivity|].
    destruct (String.prefix sep (String c s)) eqn:Hp.
    + destruct (prefix_inv _ _ Hp) as [t Ht]. rewrite Ht.
      rewrite split_from_match by assumption.
      rewrite join_cons by apply split_from_nonempty.
      rewrite IH; [reflexivity|].
      apply (f_equal String.length) in Ht. rewrite JSFacts.length_append in Ht.
      destruct sep; [congruence|]. simpl in Ht, Hlen. lia.
    + destruct (split_from_no_match _ _ _ Hp) as (seg & segs & E1 & E2).
      rewrite E2, join_cons_char, <- E1, IH; [reflexivity|]. simpl in Hlen. lia.
Qed.

Lemma join_split (s sep : string) :
  sep <> EmptyString -> JS.join sep (JS.split s sep) = s.
Proof.
  intros Hsep. unfold JS.split. destruct sep as [|c sep]; [congruence|].
  now apply (join_split_from _ (String.length s)).
Qed.

Lemma split_nonempty (s sep : string) :
  sep <> EmptyString -> JS.split s sep <> [].
Proof.
  intros Hsep. unfold JS.split. destruct sep; [congruence|]. apply split_from_nonempty.
Qed.

(** A string that does not contain the separator is a single segment. *)
Lemma split_absent (s sep : string) :
  JS.includes s sep = false -> JS.split s sep = [s].
Proof.
  intros H.
  assert (Hgo : JS.split_from sep 0 s = [s]).
  { induction s as [|c s IH]; [reflexivity|].
    cbn [JS.includes] in H. apply orb_false_iff in H as [Hp Hi].
    destruct (split_from_no_match _ _ _ Hp) as (seg & segs & E1 & E2).
    rewrite IH in E1 by assumption. injection E1 as <- <-. exact E2. }
  unfold JS.split. destruct sep; [|exact Hgo].
  destruct s; discriminate H.
Qed.

(** With a separator of one code unit, the segments of [s ++ sep ++ t] are
    those of [s] followed by those of [t]. *)
Lemma split_char_app (c : ascii) (s t : string) :
  JS.split (s ++ String c t) (String c EmptyString)
  = (JS.split s (String c EmptyString) ++ JS.split t (String c EmptyString))%list.
Proof.
  unfold JS.split. induction s as [|a s IH].
  - change (EmptyString ++ String c t) with (String c EmptyString ++ t).
    rewrite split_from_match by discriminate. reflexivity.
  - change (String a s ++ String c t) with (String a (s ++ String c t)).
    cbn [JS.split_from String.prefix].
    destruct (Ascii.ascii_dec c a) as [->|Hne].
    + assert (Hp : forall u, String.prefix EmptyString u = true) by (destruct u; reflexivity).
      rewrite !Hp. cbn [String.length Nat.sub]. rewrite IH. reflexivity.
    + rewrite IH.
      destruct (JS.split_from (String c EmptyString) 0 s) as [|seg segs] eqn:E.
      * now apply split_from_nonempty in E.
      * reflexivity.
Qed.

Lemma item_middle {A : Type} (init : list A) (x : A) (rest : list A) :
  JS.item (init ++ x :: rest)%list (JS.len init) = Some x.
Proof.
  unfold JS.item, JS.len.
  destruct (Z.ltb_spec (Z.of_nat (List.length init)) 0); [lia|].
  rewrite Nat2Z.id. rewrite nth_error_app2 by lia. now rewrite Nat.sub_diag.
Qed.

Lemma len_app {A : Type} (a b : list A) : JS.len (a ++ b)%list = JS.len a + JS.len b.
Proof.
  unfold JS.len. rewrite length_app. lia.
Qed.

Lemma last_two {A : Type} (l : list A) :
  2 <= JS.len l -> exists init a b, l = (init ++ [a; b])%list.
Proof.
  intros H. destruct (exists_last (l := l)) as (l1 & b & ->).
  { intros ->. cbn in H. lia. }
  destruct (exists_last (l := l1)) as (init & a & ->).
  { intros ->. cbn in H. lia. }
  exists init, a, b. now rewrite <- app_assoc.
Qed.

Lemma item_last_two {A : Type} (init : list A) (a b : A) :
  JS.item (init ++ [a; b])%list (JS.len (init ++ [a; b])%list - 2) = Some a /\
  JS.item (init ++ [a; b])%list (JS.len (init ++ [a; b])%list - 1) = Some b.
Proof.
  split.
  - replace (JS.len (init ++ [a; b])%list - 2) with (JS.len init)
      by (rewrite len_app; cbn; lia).
    apply item_middle.
  - replace (init ++ [a; b])%list with ((init ++ [a]) ++ [b])%list
      by (now rewrite <- app_assoc).
    replace (JS.len ((init ++ [a]) ++ [b])%list - 1) with (JS.len (init ++ [a])%list)
      by (rewrite !len_app; cbn; lia).
    apply item_middle.
Qed.

Lemma item_split_first (s sep : string) :
  sep <> EmptyString -> JS.item (JS.split s sep) 0 <> None.
Proof.
  intros Hsep. pose proof (split_nonempty s sep Hsep) as Hne.
  destruct (JS.split s sep); [congruence | discriminate].
Qed.

Lemma includes_first_unit (s : string) (c : ascii) (rest : string) :
  JS.includes s (String c EmptyString) = false -> JS.includes s (String c rest) = false.
Proof.
  induction s as [|a s IH]; [reflexivity|].
  cbn [JS.includes String.prefix]. intros H.
  destruct (Ascii.ascii_dec c a) as [->|Hne].
  - destruct s; discriminate H.
  - cbn [orb] in *. now apply IH.
Qed.

(** A segment in which the first code unit of the separator does not occur is
    cut off whole at the separator that follows it. *)
Lemma split_segment (s t : string) (c : ascii) (rest : string) :
  JS.includes s (String c EmptyString) = false ->
  JS.split (s ++ String c rest ++ t) (String c rest)
  = s :: JS.split t (String c rest).
Proof.
  unfold JS.split. induction s as [|a s IH]; intros H.
  - change (EmptyString ++ String c rest ++ t) with (String c rest ++ t).
    apply split_from_match. discriminate.
  - cbn [JS.includes String.prefix] in H.
    change (String a s ++ String c rest ++ t) with (String a (s ++ String c rest ++ t)).
    destruct (Ascii.ascii_dec c a) as [->|Hne]; [destruct s; discriminate H|].
    cbn [orb] in H.
    assert (Hp : String.prefix (String c rest) (String a (s ++ String c rest ++ t)) = false).
    { cbn [String.prefix]. destruct (Ascii.ascii_dec c a); [contradiction | reflexivity]. }
    destruct (split_from_no_match _ _ _ Hp) as (seg & segs & E1 & E2).
    rewrite IH in E1 by assumption. injection E1 as <- <-. exact E2.
Qed.

End SplitFacts.

(* ------------------------------------------------------------------------- *)
(** ** The path classifier                                                   *)
(* ------------------------------------------------------------------------- *)

Lemma apiNameOf_strip (x token : string) :
  apiNameOf (x ++ "." ++ token) token = x.
Proof.
  unfold apiNameOf, new. cbn [metadataApiName base].
  apply JSFacts.substring_strip.
  change ("." ++ token) with (String "." token).
  unfold JS.strlen. cbn [String.length]. lia.
Qed.

Lemma apiNameOf_whole (token : string) : apiNameOf token token = EmptyString.
Proof.
  unfold apiNameOf, new. cbn [metadataApiName base].
  unfold JS.substring, JS.clamp.
  pose proof (JSFacts.strlen_nonneg token).
  replace (Z.min (Z.max 0 (Z.min 0 (JS.strlen token)))
             (Z.max 0 (Z.min (JS.strlen token - (JS.strlen token + 1)) (JS.strlen token))))
    with 0 by lia.
  replace (Z.max (Z.max 0 (Z.min 0 (JS.strlen token)))
             (Z.max 0 (Z.min (JS.strlen token - (JS.strlen token + 1)) (JS.strlen token))) - 0)
    with 0 by lia.
  destruct token; reflexivity.
Qed.

Lemma getExtension_segments (pathParsedBase : string) (init : list string) (a b : string) :
  JS.split pathParsedBase "." = (init ++ [a; b])%list ->
  getExtension pathParsedBase
  = Some (if JS.len init >? 0 then a ++ "." ++ b else b).
Proof.
  intros E. unfold getExtension. rewrite E.
  destruct (SplitFacts.item_last_two init a b) as [Ha Hb]. rewrite Ha, Hb.
  rewrite SplitFacts.len_app. change (JS.len [a; b]) with 2.
  assert (0 <= JS.len init) by (unfold JS.len; lia).
  destruct (Z.gtb_spec (JS.len init + 2) 2), (Z.gtb_spec (JS.len init) 0);
    try lia; reflexivity.
Qed.

(** A filename that ends in a dot and a two-segment token has that token. *)
Lemma getExtension_two_segments (api a b : string) :
  JS.includes a "." = false -> JS.includes b "." = false ->
  getExtension (api ++ "." ++ a ++ "." ++ b) = Some (a ++ "." ++ b).
Proof.
  intros Ha Hb.
  assert (E : JS.split (api ++ "." ++ a ++ "." ++ b) "."
              = (JS.split api "." ++ [a; b])%list).
  { change (api ++ "." ++ a ++ "." ++ b) with (api ++ String "." (a ++ String "." b)).
    rewrite !SplitFacts.split_char_app.
    now rewrite (SplitFacts.split_absent _ _ Ha), (SplitFacts.split_absent _ _ Hb). }
  rewrite (getExtension_segments _ _ _ _ E).
  pose proof (SplitFacts.split_nonempty api "." ltac:(discriminate)) as Hne.
  destruct (JS.split api ".") as [|x rest]; [congruence|].
  reflexivity.
Qed.

(** C3, as amended.  The token is the last two dot-segments of the base
    filename joined by a dot when there are more than two segments, and the
    last segment alone otherwise; the API name is what is left of the base
    filename once the token and the dot before it are cut off (nothing is
    left when the filename has no dot).  'Account.field-meta.xml' gives the
    token 'field-meta.xml' and the API name 'Account'; 'MyClass.cls' gives
    'cls' and 'MyClass'. *)
Theorem token_and_api_name (pathParsedBase : string) :
  let segments := JS.split pathParsedBase "." in
  let n := JS.len segments in
  (2 < n ->
     exists a b, JS.item segments (n - 2) = Some a /\ JS.item segments (n - 1) = Some b /\
                 getExtension pathParsedBase = Some (a ++ "." ++ b)) /\
  (n <= 2 ->
     exists b, JS.item segments (n - 1) = Some b /\ getExtension pathParsedBase = Some b) /\
  (exists token, getExtension pathParsedBase = Some token /\
     (2 <= n -> pathParsedBase = apiNameOf pathParsedBase token ++ "." ++ token) /\
     (n < 2 -> token = pathParsedBase /\ apiNameOf pathParsedBase token = EmptyString)) /\
  (getExtension "Account.field-meta.xml" = Some "field-meta.xml" /\
   apiNameOf "Account.field-meta.xml" "field-meta.xml" = "Account") /\
  (getExtension "MyClass.cls" = Some "cls" /\ apiNameOf "MyClass.cls" "cls" = "MyClass").
Proof.
  intros segments n.
  assert (Hjoin : JS.join "." segments = pathParsedBase)
    by (apply SplitFacts.join_split; discriminate).
  assert (Hne : segments <> []) by (apply SplitFacts.split_nonempty; discriminate).
  assert (Hcases : (exists x, segments = [x]) \/ exists init a b, segments = (init ++ [a; b])%list).
  { destruct segments as [|x [|y rest]] eqn:E; [congruence | left; now exists x |].
    right. apply SplitFacts.last_two. cbn. lia. }
  repeat split; try reflexivity.
  - intros Hn. destruct Hcases as [[x E] | (init & a & b & E)].
    + subst n. rewrite E in Hn. cbn in Hn. lia.
    + exists a, b. subst n. rewrite E.
      destruct (SplitFacts.item_last_two init a b) as [Ha Hb].
      repeat split; try assumption.
      rewrite (getExtension_segments _ _ _ _ E).
      rewrite E, SplitFacts.len_app in Hn. change (JS.len [a; b]) with 2 in Hn.
      destruct (Z.gtb_spec (JS.len init) 0); [reflexivity | lia].
  - intros Hn. destruct Hcases as [[x E] | (init & a & b & E)].
    + exists x. unfold getExtension. fold segments. subst n. rewrite E. split; reflexivity.
    + exists b. subst n. rewrite E.
      destruct (SplitFacts.item_last_two init a b) as [Ha Hb].
      split; [assumption|].
      rewrite (getExtension_segments _ _ _ _ E).
      rewrite E, SplitFacts.len_app in Hn. change (JS.len [a; b]) with 2 in Hn.
      destruct (Z.gtb_spec (JS.len init) 0); [lia | reflexivity].
  - destruct Hcases as [[x E] | (init & a & b & E)].
    + exists x. rewrite E in Hjoin. cbn in Hjoin. subst x.
      split; [unfold getExtension; fold segments; rewrite E; reflexivity|].
      split; [subst n; rewrite E; cbn; lia|].
      intros _. split; [reflexivity | apply apiNameOf_whole].
    + rewrite (getExtension_segments _ _ _ _ E).
      destruct init as [|i0 init].
      * exists b. rewrite E in Hjoin. cbn in Hjoin.
        split; [reflexivity|]. split.
        -- intros _. rewrite <- Hjoin.
           pose proof (apiNameOf_strip a b) as Hs.
           cbn [String.append] in Hs |- *. now rewrite Hs.
        -- subst n. rewrite E. cbn. lia.
      * exists (a ++ "." ++ b). split; [reflexivity|]. split.
        -- intros _. rewrite E in Hjoin.
           rewrite SplitFacts.join_app in Hjoin by discriminate.
           change (JS.join "." [a; b]) with (a ++ "." ++ b) in Hjoin.
           rewrite <- Hjoin.
           pose proof (apiNameOf_strip (JS.join "." (i0 :: init)) (a ++ "." ++ b)) as Hs.
           cbn [String.append] in Hs |- *. now rewrite Hs.
        -- subst n. rewrite E, SplitFacts.len_app. cbn. lia.
Qed.

(** C3, the counterexample: for 'Account.field-meta.xml' the token is
    'field-meta.xml' but the API name is 'Account', not 'Account.field'. *)
Lemma api_name_of_field_file_is_not_Account_field :
  getExtension "Account.field-meta.xml" = Some "field-meta.xml" /\
  apiNameOf "Account.field-meta.xml" "field-meta.xml" = "Account" /\
  apiNameOf "Account.field-meta.xml" "field-meta.xml" <> "Account.field".
Proof.
  repeat split. discriminate.
Qed.

(* ------------------------------------------------------------------------- *)
(** ** Naming conventions                                                    *)
(* ------------------------------------------------------------------------- *)

Lemma split_name_suffix (name suffix : string) :
  JS.includes name "_" = false -> JS.includes suffix "_" = false ->
  JS.split (name ++ "__" ++ suffix) "__" = [name; suffix].
Proof.
  intros Hn Hs. rewrite SplitFacts.split_segment by assumption.
  now rewrite (SplitFacts.split_absent suffix "__") by now apply SplitFacts.includes_first_unit.
Qed.

(** C6.  [getObjectFieldDeveloperName] splits its argument on the double
    underscore; with more than two parts it returns the second part (the
    middle one of [namespace; name; suffix]), otherwise the first part.  So a
    field name followed by '__' and a suffix gives the field name, with or
    without a namespace and '__' in front (the three being free of
    underscores); 'Namespace__Field__c' and 'Field__c' both give 'Field'. *)
Theorem getObjectFieldDeveloperName_parts :
  (forall fileName,
     let parts := JS.split fileName "__" in
     (2 < JS.len parts ->
        exists seg, JS.item parts 1 = Some seg /\
                    Utils.getObjectFieldDeveloperName fileName = Some seg) /\
     (JS.len parts <= 2 ->
        exists seg, JS.item parts 0 = Some seg /\
                    Utils.getObjectFieldDeveloperName fileName = Some seg) /\
     (forall namespace name suffix,
        parts = [namespace; name; suffix] ->
        Utils.getObjectFieldDeveloperName fileName = Some name)) /\
  (forall namespace name suffix,
     JS.includes namespace "_" = false -> JS.includes name "_" = false ->
     JS.includes suffix "_" = false ->
     Utils.getObjectFieldDeveloperName (namespace ++ "__" ++ name ++ "__" ++ suffix)
     = Some name) /\
  (forall name suffix,
     JS.includes name "_" = false -> JS.includes suffix "_" = false ->
     Utils.getObjectFieldDeveloperName (name ++ "__" ++ suffix) = Some name) /\
  Utils.getObjectFieldDeveloperName "Namespace__Field__c" = Some "Field" /\
  Utils.getObjectFieldDeveloperName "Field__c" = Some "Field".
Proof.
  split; [|split; [|split; [|split; reflexivity]]].
  - intros fileName parts.
    assert (Hne : parts <> []) by (apply SplitFacts.split_nonempty; discriminate).
    unfold Utils.getObjectFieldDeveloperName. fold parts.
    split; [|split].
    + intros H. destruct (Z.gtb_spec (JS.len parts) 2); [|lia].
      destruct parts as [|a [|b rest]]; [congruence | cbn in H; lia |].
      exists b. split; reflexivity.
    + intros H. destruct (Z.gtb_spec (JS.len parts) 2); [lia|].
      destruct parts as [|a rest]; [congruence|].
      exists a. split; reflexivity.
    + intros namespace name suffix ->. reflexivity.
  - intros namespace name suffix Hns Hn Hs. unfold Utils.getObjectFieldDeveloperName.
    rewrite SplitFacts.split_segment by assumption.
    rewrite split_name_suffix by assumption. reflexivity.
  - intros name suffix Hn Hs. unfold Utils.getObjectFieldDeveloperName.
    rewrite split_name_suffix by assumption. reflexivity.
Qed.

(* ------------------------------------------------------------------------- *)
(** ** Resolver dispatch                                                     *)
(* ------------------------------------------------------------------------- *)

Lemma create_registered (c : Connection) (p : ParsedPath)
    (token : string) (v : ResolverVariant) :
  In (token, v) registeredTokens -> create c (Some token) p = inr (new v c token p).
Proof.
  intros H. unfold registeredTokens in H. cbn [In] in H.
  repeat (destruct H as [H | H]; [injection H as <- <-; reflexivity|]).
  contradiction.
Qed.

Lemma create_unregistered (c : Connection) (p : ParsedPath) (token : string) :
  ~ registered token -> token <> EmptyString ->
  create c (Some token) p = inl (Error "Unsupported metadata type").
Proof.
  intros Hreg Hne. unfold registered, registeredTokens in Hreg. cbn [map fst In] in Hreg.
  unfold create. destruct token as [|ch rest]; [congruence|].
  repeat match goal with
         | |- context [String.eqb ?a ?b] =>
             destruct (String.eqb_spec a b) as [Heq | _];
             [exfalso; apply Hreg; rewrite Heq; tauto|]
         end.
  reflexivity.
Qed.

(** C2, as amended.  Each of the fifteen registered tokens is dispatched to
    its own resolver variant; a token that is not registered and not empty
    fails with 'Unsupported metadata type'; the empty token (and a missing
    one) is stopped by the parameter guard and fails with 'Invalid
    parameters'.  No token outside the table yields a resolver. *)
Theorem create_dispatch (c : Connection) (p : ParsedPath) :
  List.length registeredTokens = 15%nat /\
  NoDup (map fst registeredTokens) /\
  (forall token v, In (token, v) registeredTokens ->
     create c (Some token) p = inr (new v c token p)) /\
  (forall token, ~ registered token -> token <> EmptyString ->
     create c (Some token) p = inl (Error "Unsupported metadata type")) /\
  create c (Some EmptyString) p = inl (Error "Invalid parameters") /\
  create c None p = inl (Error "Invalid parameters") /\
  (forall token m, create c token p = inr m ->
     exists t, token = Some t /\ In (t, variant m) registeredTokens).
Proof.
  split; [reflexivity|]. split.
  { unfold registeredTokens. cbn [map fst].
    repeat (constructor; [cbn [In]; intros H;
      repeat (destruct H as [H | H]; [discriminate H|]); exact H|]).
    constructor. }
  split; [intros token v; apply create_registered|].
  split; [intros token; apply create_unregistered|].
  split; [reflexivity|]. split; [reflexivity|].
  intros token m H. destruct token as [t|]; [|discriminate H].
  exists t. split; [reflexivity|].
  unfold create in H. destruct t as [|ch rest]; [discriminate H|].
  unfold registeredTokens. cbn [In].
  repeat match type of H with
         | context [String.eqb ?a ?b] =>
             destruct (String.eqb_spec a b) as [Heq | _];
             [injection H as <-; rewrite Heq; cbn [variant new]; tauto|]
         end.
  discriminate H.
Qed.

(** C2, the counterexample: the empty token is not in the table, and
    dispatch on it fails with 'Invalid parameters', not with 'Unsupported
    metadata type'.  It is the token of a base filename that ends in a
    dot. *)
Lemma create_empty_token_is_invalid_parameters :
  getExtension "notes." = Some EmptyString /\
  ~ registered EmptyString /\
  create emptyOrg (Some EmptyString) (mkParsedPath "docs" "notes.")
  = inl (Error "Invalid parameters") /\
  create emptyOrg (Some EmptyString) (mkParsedPath "docs" "notes.")
  <> inl (Error "Unsupported metadata type").
Proof.
  split; [reflexivity|]. split.
  - unfold registered, registeredTokens. cbn [map fst In].
    intros H. repeat (destruct H as [H | H]; [discriminate H|]). exact H.
  - split; [reflexivity | discriminate].
Qed.

(* ------------------------------------------------------------------------- *)
(** ** The resolvers                                                         *)
(* ------------------------------------------------------------------------- *)

(** Running a resolver: unfold the methods and the monad, leaving the string
    functions and the answers of the org as they are. *)
Ltac run :=
  cbv [getUrl Flow_getUrl Field_getUrl ValidationRule_getUrl FlexiPage_getUrl
       Profile_getUrl PermissionSet_getUrl PermissionSetGroup_getUrl ApexClass_getUrl
       ApexTrigger_getUrl RecordType_getUrl PageLayout_getUrl SObject_getUrl
       GlobalValueSet_getUrl QuickAction_getUrl ApprovalProcess_getUrl
       lookupByName getObjectId decode
       bind ret throw emit start await promise_all receiver find soql_query attempt
       outcome issued fst snd app
       variant conn extension pathParsed metadataApiName
       tooling_find query instanceUrl withConn firstOnly firstn].

Ltac innermost x :=
  lazymatch x with
  | context [match ?y with _ => _ end] => innermost y
  | _ => destruct x eqn:?
  end.

(** Case analysis on everything a run branches on, innermost test first. *)
Ltac branches :=
  repeat (run; match goal with
               | |- context [match ?x with _ => _ end] => innermost x
               end).

Ltac answered Hin Hresp :=
  cbn [In] in Hin;
  repeat (destruct Hin as [<- | Hin];
          [cbn [response tooling_find query] in Hresp; congruence|]);
  contradiction.

Lemma getUrl_zero_records (host : Host) (this : Metadata) (ev : Event) :
  In ev (issued (getUrl host this)) ->
  response (conn this) ev = [] ->
  exists e, outcome (getUrl host this) = inl e.
Proof.
  destruct this as [v [u tf q] ext p api].
  destruct v; branches; intros Hin Hresp;
    try answered Hin Hresp; eexists; reflexivity.
Qed.

Lemma getUrl_first_record (host : Host) (this : Metadata) :
  getUrl host (withConn (firstOnly (conn this)) this) = getUrl host this.
Proof.
  destruct this as [v [u tf q] ext p api].
  destruct v; branches; congruence.
Qed.

Lemma mentions_here (part after : string) : mentions (part ++ after) part.
Proof.
  exists EmptyString, after. reflexivity.
Qed.

Lemma mentions_at_end (part : string) : mentions part part.
Proof.
  exists EmptyString, EmptyString. simpl.
  induction part as [|c part IH]; simpl; [reflexivity | now rewrite <- IH].
Qed.

Lemma mentions_later (before s part : string) :
  mentions s part -> mentions (before ++ s) part.
Proof.
  intros (b & a & ->). exists (before ++ b), a. now rewrite SplitFacts.append_assoc.
Qed.

Ltac run_table :=
  cbv [lookups firstMissing List.find unanswered response asked kind searched
       nameLookup objectLookup map
       getUrl Flow_getUrl Field_getUrl ValidationRule_getUrl FlexiPage_getUrl
       Profile_getUrl PermissionSet_getUrl PermissionSetGroup_getUrl ApexClass_getUrl
       ApexTrigger_getUrl RecordType_getUrl PageLayout_getUrl SObject_getUrl
       GlobalValueSet_getUrl QuickAction_getUrl ApprovalProcess_getUrl
       lookupByName getObjectId decode
       bind ret throw emit start await promise_all receiver find soql_query attempt
       outcome issued fst snd app
       variant conn extension pathParsed metadataApiName
       tooling_find query instanceUrl].

(** Case analysis on the values a template prints, before anything that
    holds them. *)
Ltac rendered :=
  cbn [JS.tpl];
  repeat match goal with
         | |- context [JS.tpl ?x] => destruct x eqn:?; cbn [JS.tpl]
         end.

Ltac table_branches :=
  repeat (run_table; cbn [JS.tpl]; match goal with
                     | |- context [match ?x with _ => _ end] => innermost x
                     end).

Ltac find_mention :=
  repeat first [ apply mentions_here | apply mentions_at_end | apply mentions_later ].

(** The run of a resolver on a file that suits it, against its table of
    lookups. *)
Lemma getUrl_lookups (host : Host) (this : Metadata) :
  wellFormed host this ->
  match firstMissing (conn this) (lookups host this) with
  | Some l =>
      outcome (getUrl host this)
      = inl (Error (kind l ++ " not found for " ++ searched l)) /\
      In (asked l) (issued (getUrl host this))
  | None =>
      issued (getUrl host this) = map asked (lookups host this) /\
      exists url,
        outcome (getUrl host this) = inr url /\
        forall l r rest,
          In l (lookups host this) -> response (conn this) (asked l) = r :: rest ->
          last (lookups host this) l = l -> mentions url (Id r)
  end.
Proof.
  destruct this as [v [u tf q] ext p api]. unfold wellFormed.
  destruct v; cbn [variant pathParsed metadataApiName];
    run_table; rendered; table_branches; intros Hwf;
    try (exfalso; congruence);
    try (exfalso; eapply SplitFacts.item_split_first; [|eassumption]; discriminate);
    (split; [reflexivity|]);
    first [ left; reflexivity
          | right; left; reflexivity
          | idtac ].
  all: eexists; (split; [reflexivity|]); intros lk r rest Hin Hresp Hlast;
    cbn [In] in Hin;
    repeat (destruct Hin as [<- | Hin];
            [first [ discriminate Hlast
                   | match goal with
                     | H : ?t = ?a :: _ |- _ =>
                         rewrite H in Hresp; injection Hresp as <- _; find_mention
                     end ]|]);
    try contradiction.
Qed.

(** C1, as amended.  On a file that suits its resolver, whatever the
    resolver variant: when one of the lookups the resolver depends on is
    answered with zero records, [getUrl] fails with the error '{kind} not
    found for {name}' of the first such lookup in the order of the table,
    which names the kind of entity and the name searched, and that lookup
    was issued; when every lookup is answered, by one record or by several,
    [getUrl] issues exactly the lookups of the table and returns a URL that
    holds the id of the first record of the last one.  On any file, [getUrl]
    returns no URL when a query it issued came back with zero records, and
    its whole run is the same when every answer is cut down to its first
    record. *)
Theorem getUrl_not_found (host : Host) (this : Metadata) :
  (wellFormed host this ->
   (forall l,
      firstMissing (conn this) (lookups host this) = Some l ->
      outcome (getUrl host this)
      = inl (Error (kind l ++ " not found for " ++ searched l)) /\
      In (asked l) (issued (getUrl host this))) /\
   (forall l,
      In l (lookups host this) -> response (conn this) (asked l) = [] ->
      exists l',
        In l' (lookups host this) /\ response (conn this) (asked l') = [] /\
        outcome (getUrl host this)
        = inl (Error (kind l' ++ " not found for " ++ searched l'))) /\
   ((forall l, In l (lookups host this) -> response (conn this) (asked l) <> []) ->
    issued (getUrl host this) = map asked (lookups host this) /\
    exists url,
      outcome (getUrl host this) = inr url /\
      forall l r rest,
        In l (lookups host this) -> response (conn this) (asked l) = r :: rest ->
        last (lookups host this) l = l -> mentions url (Id r))) /\
  (forall ev url,
     In ev (issued (getUrl host this)) -> response (conn this) ev = [] ->
     outcome (getUrl host this) <> inr url) /\
  getUrl host (withConn (firstOnly (conn this)) this) = getUrl host this.
Proof.
  split; [|split].
  - intros Hwf. pose proof (getUrl_lookups host this Hwf) as Htable.
    unfold firstMissing in *. split; [|split].
    + intros l Hl. now rewrite Hl in Htable.
    + intros l Hin Hresp.
      destruct (List.find (unanswered (conn this)) (lookups host this)) as [l'|] eqn:Hfind.
      * destruct (find_some _ _ Hfind) as [Hin' Hun]. exists l'.
        split; [exact Hin'|]. split; [|exact (proj1 Htable)].
        unfold unanswered in Hun.
        destruct (response (conn this) (asked l')); [reflexivity | discriminate Hun].
      * pose proof (find_none _ _ Hfind l Hin) as Hun.
        unfold unanswered in Hun. rewrite Hresp in Hun. discriminate Hun.
    + intros Hall.
      destruct (List.find (unanswered (conn this)) (lookups host this)) as [l'|] eqn:Hfind;
        [|exact Htable].
      destruct (find_some _ _ Hfind) as [Hin' Hun]. exfalso. apply (Hall l' Hin').
      unfold unanswered in Hun.
      destruct (response (conn this) (asked l')); [reflexivity | discriminate Hun].
  - intros ev url Hin Hresp.
    destruct (getUrl_zero_records host this ev Hin Hresp) as (e & He).
    rewrite He. discriminate.
  - apply getUrl_first_record.
Qed.

(** C1, the counterexample: a record-type file that lies outside an object
    folder, in an org without that record type.  The query for the record
    type is issued and answered with zero records, and [getUrl] fails with
    the runtime's [TypeError], which is no "not found" error. *)
Lemma getUrl_type_error_despite_empty_answer :
  In (Query "SELECT Id, DeveloperName FROM RecordType WHERE DeveloperName = 'Business'")
     (issued (getUrl posixHost
                (new RecordType emptyOrg "recordType-meta.xml" recordTypeFileInRoot))) /\
  response emptyOrg
    (Query "SELECT Id, DeveloperName FROM RecordType WHERE DeveloperName = 'Business'")
  = [] /\
  outcome (getUrl posixHost (new RecordType emptyOrg "recordType-meta.xml" recordTypeFileInRoot))
  = inl TypeError /\
  (forall message,
     outcome (getUrl posixHost
                (new RecordType emptyOrg "recordType-meta.xml" recordTypeFileInRoot))
     <> inl (Error message)).
Proof.
  split; [left; reflexivity|]. split; [reflexivity|]. split; [reflexivity|].
  intros message H. discriminate H.
Qed.

Lemma getUrl_only_queries (host : Host) (this : Metadata) (ev : Event) :
  In ev (issued (getUrl host this)) -> isExec ev = false.
Proof.
  destruct this as [v [u tf q] ext p api].
  destruct v; branches; cbn [In]; intros Hin;
    repeat (destruct Hin as [<- | Hin]; [reflexivity|]); contradiction.
Qed.

(** *** Fields *)

Lemma Field_standard_run (host : Host) (this : Metadata) :
  variant this = Field ->
  Utils.isStandardField (metadataApiName this) = true ->
  getUrl host this
  = (inr ("lightning/setup/ObjectManager/"
          ++ JS.tpl (objectFolderName host (pathParsed this))
          ++ "/FieldsAndRelationships/"
          ++ (if JS.endsWith (metadataApiName this) "Id"
              then JS.substring (metadataApiName this) 0 (JS.strlen (metadataApiName this) - 2)
              else metadataApiName this)
          ++ "/view"),
     []).
Proof.
  destruct this as [v c ext p api]. cbn [variant metadataApiName pathParsed].
  intros -> Hstd. run. rewrite Hstd.
  destruct (JS.endsWith api "Id"); reflexivity.
Qed.

Lemma Field_custom_run (host : Host) (this : Metadata) (folder : string)
    (object : SRecord) (objects : list SRecord) (field : SRecord) (fields : list SRecord) :
  variant this = Field ->
  Utils.isStandardField (metadataApiName this) = false ->
  objectFolderName host (pathParsed this) = Some folder ->
  tooling_find (conn this) "CustomObject"
    [("DeveloperName", Utils.getObjectFieldDeveloperName folder)] = object :: objects ->
  tooling_find (conn this) "CustomField"
    [("DeveloperName", Utils.getObjectFieldDeveloperName (metadataApiName this));
     ("TableEnumOrId", Some (Id object))] = field :: fields ->
  getUrl host this
  = (inr (if Utils.isCustomMetadata folder then
            "lightning/setup/CustomMetadata/page?address=%2F" ++ Id field
            ++ "%3Fsetupid%3DCustomMetadata"
          else if Utils.isPlatformEvent folder then
            "lightning/setup/EventObjects/page?address=%2F" ++ Id field
            ++ "%3Fsetupid%3DEventObjects"
          else
            "lightning/setup/ObjectManager/" ++ Id object
            ++ "/FieldsAndRelationships/" ++ Id field ++ "/view"),
     [ToolingFind "CustomObject"
        [("DeveloperName", Utils.getObjectFieldDeveloperName folder)];
      ToolingFind "CustomField"
        [("DeveloperName", Utils.getObjectFieldDeveloperName (metadataApiName this));
         ("TableEnumOrId", Some (Id object))]]).
Proof.
  destruct this as [v [u tf q] ext p api].
  cbn [variant metadataApiName pathParsed conn tooling_find].
  intros -> Hstd Hfolder Hobject Hfield. run.
  rewrite Hstd, Hfolder. run. rewrite Hobject. run. rewrite Hfield. run.
  destruct (Utils.isCustomMetadata folder); [reflexivity|].
  destruct (Utils.isPlatformEvent folder); reflexivity.
Qed.

Lemma new_api_name (C : ResolverVariant) (c : Connection) (p : ParsedPath)
    (api token : string) :
  base p = api ++ "." ++ token -> metadataApiName (new C c token p) = api.
Proof.
  intros H. unfold new. cbn [metadataApiName]. rewrite H.
  apply JSFacts.substring_strip.
  change ("." ++ token) with (String "." token).
  unfold JS.strlen. cbn [String.length]. lia.
Qed.

(** The object folder of a file in [.../{folder}/{leaf}]. *)
Lemma objectFolderName_of_dir (host : Host) (p : ParsedPath) (sep : ascii)
    (parent folder leaf : string) :
  path_sep host = String sep EmptyString ->
  dir p = parent ++ String sep (folder ++ String sep leaf) ->
  JS.includes folder (String sep EmptyString) = false ->
  JS.includes leaf (String sep EmptyString) = false ->
  objectFolderName host p = Some folder.
Proof.
  intros Hsep Hdir Hfolder Hleaf. unfold objectFolderName. rewrite Hsep, Hdir.
  rewrite !SplitFacts.split_char_app.
  rewrite (SplitFacts.split_absent _ _ Hfolder), (SplitFacts.split_absent _ _ Hleaf).
  apply (SplitFacts.item_last_two (JS.split parent (String sep EmptyString)) folder leaf).
Qed.

(** C4.  For a file 'MyField__c.field-meta.xml' in the object folder
    'Account': when the custom-object lookup for 'Account' answers with a
    record of id [Id object] first and the CustomField lookup by developer
    name 'MyField' and that object id answers with a record of id [Id field]
    first, dispatch selects the Field resolver and it returns
    'lightning/setup/ObjectManager/{object id}/FieldsAndRelationships/{field
    id}/view', after exactly these two lookups. *)
Theorem Field_custom_end_to_end (host : Host) (c : Connection) (p : ParsedPath)
    (object : SRecord) (objects : list SRecord) (field : SRecord) (fields : list SRecord) :
  base p = "MyField__c.field-meta.xml" ->
  objectFolderName host p = Some "Account" ->
  tooling_find c "CustomObject" [("DeveloperName", Some "Account")] = object :: objects ->
  tooling_find c "CustomField"
    [("DeveloperName", Some "MyField"); ("TableEnumOrId", Some (Id object))]
  = field :: fields ->
  create c (getExtension (base p)) p = inr (new Field c "field-meta.xml" p) /\
  getUrl host (new Field c "field-meta.xml" p)
  = (inr ("lightning/setup/ObjectManager/" ++ Id object
          ++ "/FieldsAndRelationships/" ++ Id field ++ "/view"),
     [ToolingFind "CustomObject" [("DeveloperName", Some "Account")];
      ToolingFind "CustomField"
        [("DeveloperName", Some "MyField"); ("TableEnumOrId", Some (Id object))]]).
Proof.
  intros Hbase Hfolder Hobject Hfield.
  split; [rewrite Hbase; reflexivity|].
  assert (Hapi : metadataApiName (new Field c "field-meta.xml" p) = "MyField__c")
    by (apply new_api_name; rewrite Hbase; reflexivity).
  rewrite (Field_custom_run host (new Field c "field-meta.xml" p) "Account"
             object objects field fields);
    try rewrite Hapi; try assumption; reflexivity.
Qed.

(** C5.  A field whose API name does not end in '__c' is resolved without
    any catalog query: the URL is
    'lightning/setup/ObjectManager/{folder}/FieldsAndRelationships/{name}/view',
    where the folder is the second-to-last segment of the directory split
    on the path separator (for a directory '{parent}{sep}{folder}{sep}{leaf}'
    it is '{folder}'; a directory of fewer than two segments has none, and
    'undefined' is printed) and the name is the API name with a trailing
    'Id' cut off. *)
Theorem Field_standard_url (host : Host) (this : Metadata) :
  variant this = Field ->
  ~ (exists x, metadataApiName this = x ++ "__c") ->
  let arrayPath := JS.split (dir (pathParsed this)) (path_sep host) in
  exists trimmed,
    getUrl host this
    = (inr ("lightning/setup/ObjectManager/"
            ++ JS.tpl (JS.item arrayPath (JS.len arrayPath - 2))
            ++ "/FieldsAndRelationships/" ++ trimmed ++ "/view"),
       []) /\
    (forall x, metadataApiName this = x ++ "Id" -> trimmed = x) /\
    (~ (exists x, metadataApiName this = x ++ "Id") -> trimmed = metadataApiName this) /\
    (forall sep parent folder leaf,
       path_sep host = String sep EmptyString ->
       dir (pathParsed this) = parent ++ String sep (folder ++ String sep leaf) ->
       JS.includes folder (String sep EmptyString) = false ->
       JS.includes leaf (String sep EmptyString) = false ->
       getUrl host this
       = (inr ("lightning/setup/ObjectManager/" ++ folder
               ++ "/FieldsAndRelationships/" ++ trimmed ++ "/view"),
          [])) /\
    (JS.len arrayPath < 2 ->
     getUrl host this
     = (inr ("lightning/setup/ObjectManager/undefined/FieldsAndRelationships/"
             ++ trimmed ++ "/view"),
        [])).
Proof.
  intros Hv Hstd arrayPath.
  assert (Hs : Utils.isStandardField (metadataApiName this) = true).
  { unfold Utils.isStandardField. apply negb_true_iff. now apply JSFacts.endsWith_false. }
  rewrite (Field_standard_run host this Hv Hs).
  change (objectFolderName host (pathParsed this))
    with (JS.item arrayPath (JS.len arrayPath - 2)).
  assert (Htrim : exists trimmed,
            (if JS.endsWith (metadataApiName this) "Id"
             then JS.substring (metadataApiName this) 0 (JS.strlen (metadataApiName this) - 2)
             else metadataApiName this) = trimmed /\
            (forall x, metadataApiName this = x ++ "Id" -> trimmed = x) /\
            (~ (exists x, metadataApiName this = x ++ "Id") ->
             trimmed = metadataApiName this)).
  { destruct (JS.endsWith (metadataApiName this) "Id") eqn:HId.
    - eexists. split; [reflexivity|]. split.
      + intros x Hx. rewrite Hx. now apply JSFacts.substring_strip.
      + intros Hno. apply JSFacts.endsWith_spec in HId. contradiction.
    - eexists. split; [reflexivity|]. split.
      + intros x Hx. apply JSFacts.endsWith_false in HId. exfalso. apply HId. now exists x.
      + reflexivity. }
  destruct Htrim as (trimmed & -> & Hcut & Hkeep).
  exists trimmed. split; [reflexivity|]. split; [exact Hcut|]. split; [exact Hkeep|]. split.
  - intros sep parent folder leaf Hsep Hdir Hfolder Hleaf.
    pose proof (objectFolderName_of_dir host (pathParsed this) sep parent folder leaf
                  Hsep Hdir Hfolder Hleaf) as Hobj.
    change (objectFolderName host (pathParsed this))
      with (JS.item arrayPath (JS.len arrayPath - 2)) in Hobj.
    now rewrite Hobj.
  - intros Hshort.
    assert (Hnone : JS.item arrayPath (JS.len arrayPath - 2) = None).
    { unfold JS.item. destruct (Z.ltb_spec (JS.len arrayPath - 2) 0); [reflexivity | lia]. }
    now rewrite Hnone.
Qed.

(** C9.  On a standard field (API name not ending in '__c') [getUrl] never
    fails.  Any name that ends in 'Id' loses that ending, whatever the field
    is; the field named 'Id' is left with the empty name, and its URL ends in
    '/FieldsAndRelationships//view'. *)
Theorem Field_standard_never_fails (host : Host) (this : Metadata) :
  variant this = Field ->
  ~ (exists x, metadataApiName this = x ++ "__c") ->
  (exists url, outcome (getUrl host this) = inr url) /\
  (forall x, metadataApiName this = x ++ "Id" ->
     outcome (getUrl host this)
     = inr ("lightning/setup/ObjectManager/"
            ++ JS.tpl (objectFolderName host (pathParsed this))
            ++ "/FieldsAndRelationships/" ++ x ++ "/view")) /\
  (metadataApiName this = "Id" ->
     outcome (getUrl host this)
     = inr ("lightning/setup/ObjectManager/"
            ++ JS.tpl (objectFolderName host (pathParsed this))
            ++ "/FieldsAndRelationships//view")).
Proof.
  intros Hv Hstd.
  assert (Hs : Utils.isStandardField (metadataApiName this) = true).
  { unfold Utils.isStandardField. apply negb_true_iff. now apply JSFacts.endsWith_false. }
  rewrite (Field_standard_run host this Hv Hs). unfold outcome. cbn [fst].
  assert (Htrim : forall x, metadataApiName this = x ++ "Id" ->
            (if JS.endsWith (metadataApiName this) "Id"
             then JS.substring (metadataApiName this) 0 (JS.strlen (metadataApiName this) - 2)
             else metadataApiName this) = x).
  { intros x Hx.
    assert (HId : JS.endsWith (metadataApiName this) "Id" = true)
      by (apply JSFacts.endsWith_spec; now exists x).
    rewrite HId, Hx. now apply JSFacts.substring_strip. }
  split; [eexists; reflexivity|]. split.
  - intros x Hx. now rewrite (Htrim x Hx).
  - intros HId. now rewrite (Htrim EmptyString HId).
Qed.

(** *** Page layouts *)

Lemma PageLayout_run (host : Host) (this : Metadata) (objectName layoutName : string)
    (more : list string) (name : string)
    (object : SRecord) (objects : list SRecord) (layout : SRecord) (layouts : list SRecord) :
  variant this = PageLayout ->
  JS.split (metadataApiName this) "-" = objectName :: layoutName :: more ->
  decodeURIComponent host layoutName = Some name ->
  tooling_find (conn this) "CustomObject"
    [("DeveloperName", Utils.getObjectFieldDeveloperName objectName)] = object :: objects ->
  tooling_find (conn this) "Layout" [("Name", Some name)] = layout :: layouts ->
  getUrl host this
  = (inr ("lightning/setup/ObjectManager/" ++ Id object ++ "/PageLayouts/"
          ++ Id layout ++ "/view"),
     [ToolingFind "CustomObject"
        [("DeveloperName", Utils.getObjectFieldDeveloperName objectName)];
      ToolingFind "Layout" [("Name", Some name)]]).
Proof.
  destruct this as [v [u tf q] ext p api].
  cbn [variant metadataApiName conn tooling_find].
  intros -> Hparts Hname Hobject Hlayout. run.
  rewrite Hparts.
  change (JS.item (objectName :: layoutName :: more) 0) with (Some objectName).
  change (JS.item (objectName :: layoutName :: more) 1) with (Some layoutName).
  cbn [JS.tpl]. rewrite Hname. run. rewrite Hobject, Hlayout. reflexivity.
Qed.

(** X19.  For a layout file '{API name}.layout-meta.xml' whose API name splits
    on '-' into an object name, a layout name and possibly more: dispatch
    selects the PageLayout resolver, which
    looks the object id up under the object name, queries the Layout catalog
    by Name with the URL-decoded layout name, and, both lookups answering,
    returns 'lightning/setup/ObjectManager/{object id}/PageLayouts/{layout
    id}/view'. *)
Theorem PageLayout_url (host : Host) (c : Connection) (p : ParsedPath)
    (api objectName layoutName : string) (more : list string) (name : string)
    (object : SRecord) (objects : list SRecord) (layout : SRecord) (layouts : list SRecord) :
  base p = api ++ ".layout-meta.xml" ->
  JS.split api "-" = objectName :: layoutName :: more ->
  decodeURIComponent host layoutName = Some name ->
  tooling_find c "CustomObject"
    [("DeveloperName", Utils.getObjectFieldDeveloperName objectName)] = object :: objects ->
  tooling_find c "Layout" [("Name", Some name)] = layout :: layouts ->
  create c (getExtension (base p)) p = inr (new PageLayout c "layout-meta.xml" p) /\
  metadataApiName (new PageLayout c "layout-meta.xml" p) = api /\
  getUrl host (new PageLayout c "layout-meta.xml" p)
  = (inr ("lightning/setup/ObjectManager/" ++ Id object ++ "/PageLayouts/"
          ++ Id layout ++ "/view"),
     [ToolingFind "CustomObject"
        [("DeveloperName", Utils.getObjectFieldDeveloperName objectName)];
      ToolingFind "Layout" [("Name", Some name)]]).
Proof.
  intros Hbase Hparts Hname Hobject Hlayout.
  assert (Hapi : metadataApiName (new PageLayout c "layout-meta.xml" p) = api)
    by (now apply new_api_name).
  split.
  { rewrite Hbase.
    change (api ++ ".layout-meta.xml") with (api ++ "." ++ "layout-meta" ++ "." ++ "xml").
    rewrite (getExtension_two_segments api "layout-meta" "xml" eq_refl eq_refl).
    reflexivity. }
  split; [exact Hapi|].
  apply (PageLayout_run host _ objectName layoutName more name object objects layout layouts);
    try rewrite Hapi; try assumption; reflexivity.
Qed.

Lemma PageLayout_issued (host : Host) (this : Metadata) (objectName layoutName : string)
    (more : list string) (name : string) :
  variant this = PageLayout ->
  JS.split (metadataApiName this) "-" = objectName :: layoutName :: more ->
  decodeURIComponent host layoutName = Some name ->
  issued (getUrl host this)
  = [ToolingFind "CustomObject"
       [("DeveloperName", Utils.getObjectFieldDeveloperName objectName)];
     ToolingFind "Layout" [("Name", Some name)]].
Proof.
  destruct this as [v [u tf q] ext p api].
  cbn [variant metadataApiName conn tooling_find].
  intros -> Hparts Hname. run.
  rewrite Hparts.
  change (JS.item (objectName :: layoutName :: more) 0) with (Some objectName).
  change (JS.item (objectName :: layoutName :: more) 1) with (Some layoutName).
  cbn [JS.tpl]. rewrite Hname. branches; reflexivity.
Qed.

(** C7, what the code does where it departs from the claim.  For a layout
    file '{object}-{first}-{rest}.layout-meta.xml', whose layout name after
    the separator is '{first}-{rest}', the PageLayout resolver queries the
    Layout catalog by the URL-decoded '{first}' alone: whatever follows the
    second '-' never reaches the query, so the layout is searched under a
    name cut short. *)
Theorem PageLayout_name_cut_at_dash (host : Host) (c : Connection) (p : ParsedPath)
    (objectName first rest name : string) :
  JS.includes objectName "-" = false ->
  JS.includes first "-" = false ->
  base p = (objectName ++ "-" ++ first ++ "-" ++ rest) ++ ".layout-meta.xml" ->
  decodeURIComponent host first = Some name ->
  create c (getExtension (base p)) p = inr (new PageLayout c "layout-meta.xml" p) /\
  metadataApiName (new PageLayout c "layout-meta.xml" p)
  = objectName ++ "-" ++ first ++ "-" ++ rest /\
  issued (getUrl host (new PageLayout c "layout-meta.xml" p))
  = [ToolingFind "CustomObject"
       [("DeveloperName", Utils.getObjectFieldDeveloperName objectName)];
     ToolingFind "Layout" [("Name", Some name)]].
Proof.
  intros Ho Hf Hbase Hname.
  assert (Hapi : metadataApiName (new PageLayout c "layout-meta.xml" p)
                 = objectName ++ "-" ++ first ++ "-" ++ rest) by (now apply new_api_name).
  assert (Hparts : JS.split (objectName ++ "-" ++ first ++ "-" ++ rest) "-"
                   = objectName :: first :: JS.split rest "-").
  { change (objectName ++ "-" ++ first ++ "-" ++ rest)
      with (objectName ++ String "-" (first ++ String "-" rest)).
    rewrite !SplitFacts.split_char_app.
    now rewrite (SplitFacts.split_absent _ _ Ho), (SplitFacts.split_absent _ _ Hf). }
  split.
  { rewrite Hbase.
    now rewrite (getExtension_two_segments _ "layout-meta" "xml" eq_refl eq_refl). }
  split; [exact Hapi|].
  apply (PageLayout_issued host _ objectName first (JS.split rest "-") name);
    [reflexivity | now rewrite Hapi | exact Hname].
Qed.

(** A name with exactly one '-' splits into the part before it and the part
    after it. *)
Lemma split_object_and_layout (objectName layoutName : string) :
  JS.includes objectName "-" = false ->
  JS.includes layoutName "-" = false ->
  JS.split (objectName ++ "-" ++ layoutName) "-" = [objectName; layoutName].
Proof.
  intros Ho Hl.
  change (objectName ++ "-" ++ layoutName) with (objectName ++ String "-" layoutName).
  rewrite SplitFacts.split_char_app.
  now rewrite (SplitFacts.split_absent _ _ Ho), (SplitFacts.split_absent _ _ Hl).
Qed.

(** *** Names without a dot: approval processes and quick actions *)

Lemma ApprovalProcess_run (this : Metadata) (host : Host) :
  variant this = ApprovalProcess ->
  getUrl host this
  = (match query (conn this)
             ("SELECT Id FROM ProcessDefinition WHERE DeveloperName = '"
              ++ JS.tpl (JS.item (JS.split (metadataApiName this) ".") 1)
              ++ "' AND Type = 'Approval'") with
     | [] => inl (Error ("Approval process not found for " ++ metadataApiName this))
     | r :: _ => inr ("lightning/setup/ApprovalProcesses/page?address=%2F" ++ Id r)
     end,
     [Query ("SELECT Id FROM ProcessDefinition WHERE DeveloperName = '"
             ++ JS.tpl (JS.item (JS.split (metadataApiName this) ".") 1)
             ++ "' AND Type = 'Approval'")]).
Proof.
  destruct this as [v [u tf q] ext p api]. cbn [variant metadataApiName conn query].
  intros ->. branches; reflexivity.
Qed.

Lemma QuickAction_run (this : Metadata) (host : Host) (objectName : string) :
  variant this = QuickAction ->
  JS.item (JS.split (metadataApiName this) ".") 0 = Some objectName ->
  getUrl host this
  = (match tooling_find (conn this) "CustomObject"
             [("DeveloperName", Utils.getObjectFieldDeveloperName objectName)],
           tooling_find (conn this) "QuickActionDefinition"
             [("DeveloperName", JS.item (JS.split (metadataApiName this) ".") 1)] with
     | [], _ => inl (Error ("Object not found for " ++ objectName))
     | _ :: _, [] =>
         inl (Error ("QuickAction not found for "
                     ++ JS.tpl (JS.item (JS.split (metadataApiName this) ".") 1)))
     | object :: _, r :: _ =>
         inr ("lightning/setup/ObjectManager/" ++ Id object ++ "/ButtonsLinksActions/"
              ++ Id r ++ "/view")
     end,
     [ToolingFind "CustomObject"
        [("DeveloperName", Utils.getObjectFieldDeveloperName objectName)];
      ToolingFind "QuickActionDefinition"
        [("DeveloperName", JS.item (JS.split (metadataApiName this) ".") 1)]]).
Proof.
  destruct this as [v [u tf q] ext p api]. cbn [variant metadataApiName conn tooling_find].
  intros -> Hobject. run. rewrite Hobject. branches; reflexivity.
Qed.

(** C10.  When the API name contains no '.', the segment after the first '.'
    is absent.  The ApprovalProcess resolver still issues its query, with
    the word 'undefined' where the developer name goes; the QuickAction
    resolver still issues its two lookups, the second with an undefined
    developer name.  Neither fails for the malformed name: the outcome is a
    "not found" error or a URL, as the org answers. *)
Theorem developer_name_absent_without_dot (host : Host) (this : Metadata) :
  JS.includes (metadataApiName this) "." = false ->
  JS.item (JS.split (metadataApiName this) ".") 1 = None /\
  (variant this = ApprovalProcess ->
   issued (getUrl host this)
   = [Query "SELECT Id FROM ProcessDefinition WHERE DeveloperName = 'undefined' AND Type = 'Approval'"] /\
   (outcome (getUrl host this)
    = inl (Error ("Approval process not found for " ++ metadataApiName this)) \/
    exists r, outcome (getUrl host this)
              = inr ("lightning/setup/ApprovalProcesses/page?address=%2F" ++ Id r))) /\
  (variant this = QuickAction ->
   issued (getUrl host this)
   = [ToolingFind "CustomObject"
        [("DeveloperName", Utils.getObjectFieldDeveloperName (metadataApiName this))];
      ToolingFind "QuickActionDefinition" [("DeveloperName", None)]] /\
   (outcome (getUrl host this)
    = inl (Error ("Object not found for " ++ metadataApiName this)) \/
    outcome (getUrl host this) = inl (Error "QuickAction not found for undefined") \/
    exists object r,
      outcome (getUrl host this)
      = inr ("lightning/setup/ObjectManager/" ++ Id object ++ "/ButtonsLinksActions/"
             ++ Id r ++ "/view"))).
Proof.
  intros Hdot.
  pose proof (SplitFacts.split_absent _ _ Hdot) as Hparts.
  assert (H1 : JS.item (JS.split (metadataApiName this) ".") 1 = None)
    by (rewrite Hparts; reflexivity).
  assert (H0 : JS.item (JS.split (metadataApiName this) ".") 0 = Some (metadataApiName this))
    by (rewrite Hparts; reflexivity).
  split; [exact H1|]. split.
  - intros Hv. rewrite (ApprovalProcess_run this host Hv), H1.
    unfold issued, outcome. cbn [fst snd JS.tpl]. split; [reflexivity|].
    destruct (query (conn this) _) as [|r rest]; [left; reflexivity | right; now exists r].
  - intros Hv. rewrite (QuickAction_run this host _ Hv H0), H1.
    unfold issued, outcome. cbn [fst snd JS.tpl]. split; [reflexivity|].
    destruct (tooling_find (conn this) "CustomObject" _) as [|object objects];
      [left; reflexivity|].
    destruct (tooling_find (conn this) "QuickActionDefinition" _) as [|r rest];
      [right; left; reflexivity | right; right; now exists object, r].
Qed.

(* ------------------------------------------------------------------------- *)
(** ** The launcher                                                          *)
(* ------------------------------------------------------------------------- *)

(** C8.  When resolution succeeds with a relative URL, [go] issues, after the
    queries of the resolution, exactly one command: 'start' on Windows and
    'open' elsewhere, followed by a space, the org's base URL, a '/' and the
    relative URL.  When resolution fails, [go] fails with the same exception
    and issues nothing beyond the queries; resolution itself never issues a
    command. *)
Theorem go_launches_browser (host : Host) (c : Connection) (pathString : string) :
  (forall url, outcome (resolve host c pathString) = inr url ->
     issued (go host c pathString)
     = (issued (resolve host c pathString)
        ++ [Exec ((if String.eqb (process_platform host) "win32" then "start" else "open")
                  ++ " " ++ instanceUrl c ++ "/" ++ url)])%list) /\
  (forall e, outcome (resolve host c pathString) = inl e ->
     go host c pathString = (inl e, issued (resolve host c pathString))) /\
  (forall ev, In ev (issued (resolve host c pathString)) -> isExec ev = false).
Proof.
  unfold go, resolve, Utils.isWindows.
  destruct (create c (getExtension (base (path_parse host pathString)))
              (path_parse host pathString)) as [e0 | metadata].
  - cbn. split; [|split].
    + intros url H. discriminate H.
    + intros e H. injection H as <-. reflexivity.
    + contradiction.
  - pose proof (getUrl_only_queries host metadata) as Hq.
    unfold attempt, bind, execPromise, emit, ret, throw, outcome, issued in *.
    destruct (getUrl host metadata) as [[e1 | url1] evs]; cbn [fst snd app] in *.
    + split; [|split].
      * intros url H. discriminate H.
      * intros e H. injection H as <-. reflexivity.
      * exact Hq.
    + split; [|split].
      * intros url H. injection H as <-.
        destruct (String.eqb (process_platform host) "win32");
          destruct (exec_result host _); reflexivity.
      * intros e H. discriminate H.
      * exact Hq.
Qed.

(* ------------------------------------------------------------------------- *)
(** ** The statements at concrete files                                      *)
(* ------------------------------------------------------------------------- *)

(** A flow that the org does not know: the lookup comes back empty and
    [getUrl] fails with 'Flow not found for MyFlow'. *)
Lemma getUrl_not_found_witness :
  wellFormed posixHost (new Flow emptyOrg "flow-meta.xml" flowFile) /\
  firstMissing emptyOrg (lookups posixHost (new Flow emptyOrg "flow-meta.xml" flowFile))
  = Some (nameLookup "FlowDefinition" "DeveloperName" "Flow" "MyFlow") /\
  outcome (getUrl posixHost (new Flow emptyOrg "flow-meta.xml" flowFile))
  = inl (Error "Flow not found for MyFlow").
Proof.
  split; [exact I|]. split; [reflexivity|].
  exact (proj1 (proj1 (proj1 (getUrl_not_found posixHost
                                (new Flow emptyOrg "flow-meta.xml" flowFile)) I)
                  (nameLookup "FlowDefinition" "DeveloperName" "Flow" "MyFlow") eq_refl)).
Defined.

Lemma Field_custom_end_to_end_witness :
  create sampleOrg (getExtension (base customFieldFile)) customFieldFile
  = inr (new Field sampleOrg "field-meta.xml" customFieldFile) /\
  getUrl posixHost (new Field sampleOrg "field-meta.xml" customFieldFile)
  = (inr "lightning/setup/ObjectManager/01I5g000000AAAA/FieldsAndRelationships/00N5g000000CCCC/view",
     [ToolingFind "CustomObject" [("DeveloperName", Some "Account")];
      ToolingFind "CustomField"
        [("DeveloperName", Some "MyField"); ("TableEnumOrId", Some "01I5g000000AAAA")]]).
Proof.
  exact (Field_custom_end_to_end posixHost sampleOrg customFieldFile
           (mkRecord "01I5g000000AAAA" "") [mkRecord "01I5g000000BBBB" ""]
           (mkRecord "00N5g000000CCCC" "01I5g000000DDDD") [mkRecord "00N5g000000EEEE" ""]
           eq_refl eq_refl eq_refl eq_refl).
Defined.

Lemma Field_standard_url_witness :
  getUrl posixHost (new Field emptyOrg "field-meta.xml" ownerIdFieldFile)
  = (inr "lightning/setup/ObjectManager/Account/FieldsAndRelationships/Owner/view", []).
Proof.
  destruct (Field_standard_url posixHost (new Field emptyOrg "field-meta.xml" ownerIdFieldFile)
              eq_refl (proj1 (JSFacts.endsWith_false "OwnerId" "__c") eq_refl))
    as (trimmed & _ & Htrim & _ & Hdir & _).
  rewrite (Hdir "/"%char "force-app/main/default/objects" "Account" "fields"
             eq_refl eq_refl eq_refl eq_refl).
  now rewrite (Htrim "Owner" eq_refl).
Defined.

Lemma PageLayout_url_witness :
  metadataApiName (new PageLayout sampleOrg "layout-meta.xml" layoutFile)
  = "Account-Account %28Marketing%29 Layout" /\
  getUrl posixHost (new PageLayout sampleOrg "layout-meta.xml" layoutFile)
  = (inr "lightning/setup/ObjectManager/01I5g000000AAAA/PageLayouts/00N5g000000CCCC/view",
     [ToolingFind "CustomObject" [("DeveloperName", Some "Account")];
      ToolingFind "Layout" [("Name", Some "Account (Marketing) Layout")]]).
Proof.
  exact (proj2 (PageLayout_url posixHost sampleOrg layoutFile
           "Account-Account %28Marketing%29 Layout"
           "Account" "Account %28Marketing%29 Layout" [] "Account (Marketing) Layout"
           (mkRecord "01I5g000000AAAA" "") [mkRecord "01I5g000000BBBB" ""]
           (mkRecord "00N5g000000CCCC" "01I5g000000DDDD") [mkRecord "00N5g000000EEEE" ""]
           eq_refl eq_refl eq_refl eq_refl eq_refl)).
Defined.

Lemma PageLayout_name_cut_at_dash_witness :
  metadataApiName (new PageLayout sampleOrg "layout-meta.xml" closedCaseLayoutFile)
  = "Case-Case Layout - Closed" /\
  issued (getUrl posixHost (new PageLayout sampleOrg "layout-meta.xml" closedCaseLayoutFile))
  = [ToolingFind "CustomObject" [("DeveloperName", Some "Case")];
     ToolingFind "Layout" [("Name", Some "Case Layout ")]].
Proof.
  exact (proj2 (PageLayout_name_cut_at_dash posixHost sampleOrg closedCaseLayoutFile
                  "Case" "Case Layout " " Closed" "Case Layout "
                  eq_refl eq_refl eq_refl eq_refl)).
Defined.

Lemma Field_standard_never_fails_witness :
  outcome (getUrl posixHost (new Field emptyOrg "field-meta.xml" idFieldFile))
  = inr "lightning/setup/ObjectManager/Account/FieldsAndRelationships//view".
Proof.
  exact (proj2 (proj2
           (Field_standard_never_fails posixHost
              (new Field emptyOrg "field-meta.xml" idFieldFile)
              eq_refl (proj1 (JSFacts.endsWith_false "Id" "__c") eq_refl)))
           eq_refl).
Defined.

Lemma developer_name_absent_without_dot_witness :
  issued (getUrl posixHost
            (new ApprovalProcess sampleOrg "approvalProcess-meta.xml" approvalProcessFile))
  = [Query "SELECT Id FROM ProcessDefinition WHERE DeveloperName = 'undefined' AND Type = 'Approval'"].
Proof.
  exact (proj1 (proj1 (proj2
           (developer_name_absent_without_dot posixHost
              (new ApprovalProcess sampleOrg "approvalProcess-meta.xml" approvalProcessFile)
              eq_refl))
           eq_refl)).
Defined.

(** The flow of the specification's end-to-end example. *)
Example go_opens_the_flow :
  go posixHost sampleOrg "force-app/main/default/flows/MyFlow.flow-meta.xml"
  = (inr tt,
     [ToolingFind "FlowDefinition" [("DeveloperName", Some "MyFlow")];
      Exec "open https://acme.my.salesforce.com/lightning/setup/Flows/page?address=%2F00N5g000000CCCC"]).
Proof. reflexivity. Qed.

Example go_on_windows :
  go windowsHost sampleOrg "force-app\main\default\objects\Account\fields\OwnerId.field-meta.xml"
  = (inr tt,
     [Exec "start https://acme.my.salesforce.com/lightning/setup/ObjectManager/Account/FieldsAndRelationships/Owner/view"]).
Proof. reflexivity. Qed.

Example go_unsupported :
  go posixHost sampleOrg "README.md" = (inl (Error "Unsupported metadata type"), []).
Proof. reflexivity. Qed.

(** Files that do not suit their resolver: a record type outside an object
    folder stops on a [TypeError] although its query came back empty, and a
    layout whose name cannot be decoded stops on a [URIError]. *)
Example recordType_outside_object_folder :
  getUrl posixHost
    (new RecordType emptyOrg "recordType-meta.xml"
       (mkParsedPath "" "Business.recordType-meta.xml"))
  = (inl TypeError,
     [Query "SELECT Id, DeveloperName FROM RecordType WHERE DeveloperName = 'Business'"]).
Proof. reflexivity. Qed.

Example layout_name_not_decodable :
  getUrl posixHost
    (new PageLayout emptyOrg "layout-meta.xml"
       (mkParsedPath "layouts" "Account-100%.layout-meta.xml"))
  = (inl URIError, [ToolingFind "CustomObject" [("DeveloperName", Some "Account")]]).
Proof. reflexivity. Qed.

(** A layout name that holds a '-' of its own: only the segment up to it is
    looked up. *)
Example layout_name_with_dash :
  issued (getUrl posixHost
            (new PageLayout sampleOrg "layout-meta.xml"
               (mkParsedPath "layouts" "Case-Case Layout - Closed.layout-meta.xml")))
  = [ToolingFind "CustomObject" [("DeveloperName", Some "Case")];
     ToolingFind "Layout" [("Name", Some "Case Layout ")]].
Proof. reflexivity. Qed.

(* ------------------------------------------------------------------------- *)
(** ** Further properties: naming conventions                                *)
(* ------------------------------------------------------------------------- *)

Lemma append_last_unit (x y : string) (a b : ascii) :
  x ++ String a EmptyString = y ++ String b EmptyString -> a = b.
Proof.
  revert y. induction x as [|c x IH]; intros [|d y] H; simpl in H.
  - now injection H.
  - injection H as _ H. destruct y; discriminate H.
  - injection H as _ H. destruct x; discriminate H.
  - injection H as _ H. now apply (IH y).
Qed.

Lemma suffix_last_unit (s x y u v : string) (a b : ascii) :
  s = x ++ u ++ String a EmptyString -> s = y ++ v ++ String b EmptyString -> a = b.
Proof.
  intros -> H. rewrite <- !SplitFacts.append_assoc in H.
  exact (append_last_unit _ _ _ _ H).
Qed.

(** X1.  The suffix markers '__c', '__mdt' and '__e' exclude one another, so
    every API name is of exactly one kind: custom (ends in '__c'), custom
    metadata type, platform event, or standard object; a custom metadata type
    or platform event name counts as a standard field name. *)
Theorem api_name_kinds (apiName : string) :
  (Utils.isCustomMetadata apiName = true ->
     Utils.isPlatformEvent apiName = false /\ Utils.isStandardField apiName = true) /\
  (Utils.isPlatformEvent apiName = true ->
     Utils.isCustomMetadata apiName = false /\ Utils.isStandardField apiName = true) /\
  (Utils.isStandardField apiName = false ->
     Utils.isCustomMetadata apiName = false /\ Utils.isPlatformEvent apiName = false) /\
  (Utils.isStandardObject apiName = true <->
     Utils.isStandardField apiName = true /\ Utils.isCustomMetadata apiName = false /\
     Utils.isPlatformEvent apiName = false) /\
  (Utils.isStandardObject apiName = false <->
     (exists x, apiName = x ++ "__c") \/ (exists x, apiName = x ++ "__mdt") \/
     (exists x, apiName = x ++ "__e")).
Proof.
  unfold Utils.isStandardObject, Utils.isStandardField, Utils.isCustomMetadata,
    Utils.isPlatformEvent.
  assert (Hcm : JS.endsWith apiName "__c" = true -> JS.endsWith apiName "__mdt" = true -> False).
  { intros H1 H2. apply JSFacts.endsWith_spec in H1 as [x Hx], H2 as [y Hy].
    pose proof (suffix_last_unit apiName x y "__" "__md" "c" "t" Hx Hy). discriminate. }
  assert (Hce : JS.endsWith apiName "__c" = true -> JS.endsWith apiName "__e" = true -> False).
  { intros H1 H2. apply JSFacts.endsWith_spec in H1 as [x Hx], H2 as [y Hy].
    pose proof (suffix_last_unit apiName x y "__" "__" "c" "e" Hx Hy). discriminate. }
  assert (Hme : JS.endsWith apiName "__mdt" = true -> JS.endsWith apiName "__e" = true -> False).
  { intros H1 H2. apply JSFacts.endsWith_spec in H1 as [x Hx], H2 as [y Hy].
    pose proof (suffix_last_unit apiName x y "__md" "__" "t" "e" Hx Hy). discriminate. }
  rewrite <- !JSFacts.endsWith_spec.
  destruct (JS.endsWith apiName "__c"), (JS.endsWith apiName "__mdt"),
    (JS.endsWith apiName "__e"); cbn;
    try (exfalso; now auto);
    repeat split; intros; try discriminate; try tauto; intuition discriminate.
Qed.

Lemma join_head (sep seg : string) (segs : list string) :
  exists w, JS.join sep (seg :: segs) = seg ++ w.
Proof.
  destruct segs as [|y segs].
  - exists EmptyString. simpl. clear. induction seg; simpl; [reflexivity | now rewrite <- IHseg].
  - exists (sep ++ JS.join sep (y :: segs)). reflexivity.
Qed.

(** No segment cut by [split] contains the separator. *)
Lemma split_from_segments_free (sep : string) (n : nat) :
  sep <> EmptyString ->
  forall s, (String.length s <= n)%nat ->
  Forall (fun seg => JS.includes seg sep = false) (JS.split_from sep 0 s).
Proof.
  intros Hsep.
  assert (Hempty : JS.includes EmptyString sep = false)
    by (destruct sep; [congruence | reflexivity]).
  induction n as [|n IH]; intros s Hlen.
  - destruct s; [|simpl in Hlen; lia]. constructor; [exact Hempty | constructor].
  - destruct s as [|c s]; [constructor; [exact Hempty | constructor]|].
    destruct (String.prefix sep (String c s)) eqn:Hp.
    + destruct (SplitFacts.prefix_inv _ _ Hp) as [t Ht]. rewrite Ht.
      rewrite SplitFacts.split_from_match by assumption.
      constructor; [exact Hempty|]. apply IH.
      apply (f_equal String.length) in Ht. rewrite JSFacts.length_append in Ht.
      destruct sep; [congruence|]. simpl in Ht, Hlen. lia.
    + destruct (SplitFacts.split_from_no_match _ _ _ Hp) as (seg & segs & E1 & E2).
      assert (Hs : (String.length s <= n)%nat) by (simpl in Hlen; lia).
      pose proof (IH s Hs) as Hall. rewrite E1 in Hall. rewrite E2.
      inversion Hall as [|? ? Hseg Hsegs]; subst.
      constructor; [|exact Hsegs].
      cbn [JS.includes]. rewrite Hseg, orb_false_r.
      destruct (String.prefix sep (String c seg)) eqn:Hq; [|reflexivity].
      destruct (SplitFacts.prefix_inv _ _ Hq) as [u Hu].
      destruct (join_head sep seg segs) as [w Hw].
      pose proof (SplitFacts.join_split_from sep n Hsep s Hs) as Hj.
      rewrite E1, Hw in Hj.
      assert (Hfull : String c s = sep ++ (u ++ w)).
      { rewrite <- Hj. change (String c (seg ++ w)) with (String c seg ++ w).
        rewrite Hu. apply SplitFacts.append_assoc. }
      rewrite Hfull, SplitFacts.prefix_append in Hp. discriminate.
Qed.

Lemma getObjectFieldDeveloperName_without_separator (fileName : string) :
  JS.includes fileName "__" = false ->
  Utils.getObjectFieldDeveloperName fileName = Some fileName.
Proof.
  intros H. unfold Utils.getObjectFieldDeveloperName.
  now rewrite (SplitFacts.split_absent _ _ H).
Qed.

(** X2.  [getObjectFieldDeveloperName] always returns a string, never
    [undefined]; the string returned holds no double underscore; a name
    without a double underscore is returned as it is, so that applying the
    function to its own result changes nothing. *)
Theorem getObjectFieldDeveloperName_invariants (fileName : string) :
  exists developerName,
    Utils.getObjectFieldDeveloperName fileName = Some developerName /\
    JS.includes developerName "__" = false /\
    Utils.getObjectFieldDeveloperName developerName = Some developerName /\
    (JS.includes fileName "__" = false -> developerName = fileName).
Proof.
  pose proof (split_from_segments_free "__" (String.length fileName)
                ltac:(discriminate) fileName (Nat.le_refl _)) as Hall.
  change (JS.split_from "__" 0 fileName) with (JS.split fileName "__") in Hall.
  pose proof (SplitFacts.split_nonempty fileName "__" ltac:(discriminate)) as Hne.
  assert (Hsome : exists d, Utils.getObjectFieldDeveloperName fileName = Some d /\
                            In d (JS.split fileName "__")).
  { unfold Utils.getObjectFieldDeveloperName.
    destruct (JS.split fileName "__") as [|a [|b [|c rest]]]; [congruence | | |].
    - exists a. split; [reflexivity | now left].
    - exists a. split; [reflexivity | now left].
    - exists b. split; [|right; now left].
      replace (JS.len (a :: b :: c :: rest) >? 2) with true; [reflexivity|].
      symmetry. apply Z.gtb_lt. unfold JS.len. cbn [List.length]. lia. }
  destruct Hsome as (d & Hd & Hin). exists d.
  assert (Hfree : JS.includes d "__" = false)
    by (rewrite Forall_forall in Hall; now apply Hall).
  split; [exact Hd|]. split; [exact Hfree|]. split.
  - now apply getObjectFieldDeveloperName_without_separator.
  - intros H. rewrite (getObjectFieldDeveloperName_without_separator _ H) in Hd.
    now injection Hd.
Qed.

(* ------------------------------------------------------------------------- *)
(** ** Further properties: from the file name to the resolver                *)
(* ------------------------------------------------------------------------- *)

Lemma getExtension_of_two_segment_token (api token a b : string) :
  JS.split token "." = [a; b] ->
  getExtension (api ++ "." ++ token) = Some token.
Proof.
  intros Ht.
  assert (Htoken : a ++ "." ++ b = token).
  { pose proof (SplitFacts.join_split token "." ltac:(discriminate)) as Hj.
    now rewrite Ht in Hj. }
  assert (E : JS.split (api ++ "." ++ token) "." = (JS.split api "." ++ [a; b])%list).
  { change (api ++ "." ++ token) with (api ++ String "." token).
    now rewrite SplitFacts.split_char_app, Ht. }
  rewrite (getExtension_segments _ _ _ _ E).
  pose proof (SplitFacts.split_nonempty api "." ltac:(discriminate)) as Hne.
  destruct (JS.split api ".") as [|x rest]; [congruence|].
  now rewrite <- Htoken.
Qed.

Lemma getExtension_of_one_segment_token (api token : string) :
  JS.includes api "." = false -> JS.includes token "." = false ->
  getExtension (api ++ "." ++ token) = Some token.
Proof.
  intros Ha Ht.
  assert (E : JS.split (api ++ "." ++ token) "." = ([] ++ [api; token])%list).
  { change (api ++ "." ++ token) with (api ++ String "." token).
    now rewrite SplitFacts.split_char_app, (SplitFacts.split_absent _ _ Ha),
      (SplitFacts.split_absent _ _ Ht). }
  now rewrite (getExtension_segments _ _ _ _ E).
Qed.

(** X3.  A file named '{API name}.{token}' for a registered token is
    classified back into its parts: [getExtension] gives the token,
    [Factory.create] the resolver registered for it, and the constructor the
    API name.  For the tokens '...-meta.xml' this holds for every API name,
    dots included; for 'cls' and 'trigger' it holds for names without a
    dot. *)
Theorem registered_file_round_trip (c : Connection) (p : ParsedPath)
    (api token : string) (v : ResolverVariant) :
  In (token, v) registeredTokens ->
  base p = api ++ "." ++ token ->
  JS.includes token "." = true \/ JS.includes api "." = false ->
  getExtension (base p) = Some token /\
  create c (getExtension (base p)) p = inr (new v c token p) /\
  variant (new v c token p) = v /\
  metadataApiName (new v c token p) = api.
Proof.
  intros Hin Hbase Hdots.
  assert (Hext : getExtension (api ++ "." ++ token) = Some token).
  { pose proof Hin as Hcases. unfold registeredTokens in Hcases. cbn [In] in Hcases.
    repeat (destruct Hcases as [Hcases | Hcases];
            [injection Hcases as <- <-;
             first [ eapply getExtension_of_two_segment_token; reflexivity
                   | destruct Hdots as [Hd | Hd];
                     [discriminate Hd
                     | now apply getExtension_of_one_segment_token] ]|]).
    contradiction. }
  rewrite Hbase, Hext.
  split; [reflexivity|]. split; [now apply create_registered|].
  split; [reflexivity | now apply new_api_name].
Qed.

Lemma registered_file_round_trip_witness :
  getExtension (base layoutFile) = Some "layout-meta.xml" /\
  create sampleOrg (getExtension (base layoutFile)) layoutFile
  = inr (new PageLayout sampleOrg "layout-meta.xml" layoutFile) /\
  variant (new PageLayout sampleOrg "layout-meta.xml" layoutFile) = PageLayout /\
  metadataApiName (new PageLayout sampleOrg "layout-meta.xml" layoutFile)
  = "Account-Account %28Marketing%29 Layout".
Proof.
  apply (registered_file_round_trip sampleOrg layoutFile
           "Account-Account %28Marketing%29 Layout" "layout-meta.xml" PageLayout).
  - unfold registeredTokens. cbn [In]. tauto.
  - reflexivity.
  - left. reflexivity.
Defined.

(** X4.  The one-segment tokens only fit names without a dot: an Apex class
    or trigger file whose name holds a dot ('{x}.{y}.cls') is classified by its
    last two segments, which no resolver is registered for, and dispatch
    fails with 'Unsupported metadata type'. *)
Theorem dotted_apex_file_unsupported (c : Connection) (p : ParsedPath)
    (x y ext : string) :
  ext = "cls" \/ ext = "trigger" ->
  JS.includes y "." = false ->
  base p = x ++ "." ++ y ++ "." ++ ext ->
  getExtension (base p) = Some (y ++ "." ++ ext) /\
  create c (getExtension (base p)) p = inl (Error "Unsupported metadata type").
Proof.
  intros Hext Hy Hbase.
  assert (Hdot : JS.includes ext "." = false) by (destruct Hext as [-> | ->]; reflexivity).
  assert (Hparts : JS.split (y ++ "." ++ ext) "." = [y; ext]).
  { change (y ++ "." ++ ext) with (y ++ String "." ext).
    now rewrite SplitFacts.split_char_app, (SplitFacts.split_absent _ _ Hy),
      (SplitFacts.split_absent _ _ Hdot). }
  rewrite Hbase, (getExtension_of_two_segment_token x _ _ _ Hparts).
  split; [reflexivity|].
  apply create_unregistered.
  - intros Hreg.
    unfold registered, registeredTokens in Hreg. cbn [map fst In] in Hreg.
    repeat (destruct Hreg as [Hreg | Hreg];
            [rewrite <- Hreg in Hparts; vm_compute in Hparts;
             destruct Hext as [-> | ->]; discriminate Hparts|]).
    contradiction.
  - destruct y; discriminate.
Qed.

Lemma dotted_apex_file_unsupported_witness :
  getExtension "AccountService.Test.cls" = Some "Test.cls" /\
  create sampleOrg (getExtension "AccountService.Test.cls")
    (mkParsedPath "force-app/main/default/classes" "AccountService.Test.cls")
  = inl (Error "Unsupported metadata type").
Proof.
  exact (dotted_apex_file_unsupported sampleOrg
           (mkParsedPath "force-app/main/default/classes" "AccountService.Test.cls")
           "AccountService" "Test" "cls" (or_introl eq_refl) eq_refl eq_refl).
Defined.

(* ------------------------------------------------------------------------- *)
(** ** Further properties: the resolvers the claims leave out                *)
(* ------------------------------------------------------------------------- *)

Lemma platformEvent_not_customMetadata (apiName : string) :
  Utils.isPlatformEvent apiName = true -> Utils.isCustomMetadata apiName = false.
Proof.
  unfold Utils.isPlatformEvent, Utils.isCustomMetadata. intros He.
  destruct (JS.endsWith apiName "__mdt") eqn:Hm; [|reflexivity].
  apply JSFacts.endsWith_spec in He as [x Hx], Hm as [y Hy].
  pose proof (suffix_last_unit apiName x y "__" "__md" "e" "t" Hx Hy). discriminate.
Qed.

Lemma SObject_run (host : Host) (this : Metadata) :
  variant this = SObject ->
  getUrl host this
  = (match tooling_find (conn this) "CustomObject"
             [("DeveloperName", Utils.getObjectFieldDeveloperName (metadataApiName this))] with
     | [] => inl (Error ("Object not found for " ++ metadataApiName this))
     | object :: _ =>
         inr (if Utils.isCustomMetadata (metadataApiName this) then
                "lightning/setup/CustomMetadata/page?address=%2F" ++ Id object
                ++ "%3Fsetupid%3DCustomMetadata"
              else if Utils.isPlatformEvent (metadataApiName this) then
                "lightning/setup/EventObjects/page?address=%2F" ++ Id object
                ++ "%3Fsetupid%3DEventObjects"
              else "lightning/setup/ObjectManager/" ++ Id object ++ "/Details/view")
     end,
     [ToolingFind "CustomObject"
        [("DeveloperName", Utils.getObjectFieldDeveloperName (metadataApiName this))]]).
Proof.
  destruct this as [v [u tf q] ext p api]. cbn [variant metadataApiName conn tooling_find].
  intros ->. branches; reflexivity.
Qed.

(** X5.  The SObject resolver makes one lookup, of the custom object whose
    developer name is the API name without namespace and suffix, and builds
    the URL from the id of the first record: the custom-metadata page for a
    name ending in '__mdt', the event-object page for a name ending in '__e',
    the object manager's detail page for any other name. *)
Theorem SObject_url (host : Host) (this : Metadata)
    (object : SRecord) (objects : list SRecord) :
  variant this = SObject ->
  tooling_find (conn this) "CustomObject"
    [("DeveloperName", Utils.getObjectFieldDeveloperName (metadataApiName this))]
  = object :: objects ->
  issued (getUrl host this)
  = [ToolingFind "CustomObject"
       [("DeveloperName", Utils.getObjectFieldDeveloperName (metadataApiName this))]] /\
  ((exists x, metadataApiName this = x ++ "__mdt") ->
   outcome (getUrl host this)
   = inr ("lightning/setup/CustomMetadata/page?address=%2F" ++ Id object
          ++ "%3Fsetupid%3DCustomMetadata")) /\
  ((exists x, metadataApiName this = x ++ "__e") ->
   outcome (getUrl host this)
   = inr ("lightning/setup/EventObjects/page?address=%2F" ++ Id object
          ++ "%3Fsetupid%3DEventObjects")) /\
  (~ (exists x, metadataApiName this = x ++ "__mdt") ->
   ~ (exists x, metadataApiName this = x ++ "__e") ->
   outcome (getUrl host this)
   = inr ("lightning/setup/ObjectManager/" ++ Id object ++ "/Details/view")).
Proof.
  intros Hv Hobject. rewrite (SObject_run host this Hv), Hobject.
  unfold issued, outcome. cbn [fst snd]. split; [reflexivity|].
  unfold Utils.isCustomMetadata. split; [|split].
  - intros H. apply JSFacts.endsWith_spec in H. now rewrite H.
  - intros H. apply JSFacts.endsWith_spec in H.
    pose proof (platformEvent_not_customMetadata _ H) as Hm.
    unfold Utils.isCustomMetadata in Hm. unfold Utils.isPlatformEvent. now rewrite Hm, H.
  - intros Hm He. apply JSFacts.endsWith_false in Hm, He.
    unfold Utils.isPlatformEvent. now rewrite Hm, He.
Qed.

Lemma SObject_url_witness :
  outcome (getUrl posixHost
             (new SObject sampleOrg "object-meta.xml"
                (mkParsedPath "force-app/main/default/objects/Setting__mdt"
                   "Setting__mdt.object-meta.xml")))
  = inr "lightning/setup/CustomMetadata/page?address=%2F01I5g000000AAAA%3Fsetupid%3DCustomMetadata".
Proof.
  exact (proj1 (proj2
           (SObject_url posixHost
              (new SObject sampleOrg "object-meta.xml"
                 (mkParsedPath "force-app/main/default/objects/Setting__mdt"
                    "Setting__mdt.object-meta.xml"))
              (mkRecord "01I5g000000AAAA" "") [mkRecord "01I5g000000BBBB" ""]
              eq_refl eq_refl))
           (ex_intro _ "Setting" eq_refl)).
Defined.

Lemma RecordType_run (host : Host) (this : Metadata) (folder : string) :
  variant this = RecordType ->
  objectFolderName host (pathParsed this) = Some folder ->
  getUrl host this
  = (match tooling_find (conn this) "CustomObject"
             [("DeveloperName", Utils.getObjectFieldDeveloperName folder)],
           query (conn this)
             ("SELECT Id, DeveloperName FROM RecordType WHERE DeveloperName = '"
              ++ metadataApiName this ++ "'") with
     | [], _ => inl (Error ("Object not found for " ++ folder))
     | _ :: _, [] => inl (Error ("RecordType not found for " ++ metadataApiName this))
     | object :: _, r :: _ =>
         inr ("lightning/setup/ObjectManager/" ++ Id object ++ "/RecordTypes/"
              ++ Id r ++ "/view")
     end,
     [ToolingFind "CustomObject"
        [("DeveloperName", Utils.getObjectFieldDeveloperName folder)];
      Query ("SELECT Id, DeveloperName FROM RecordType WHERE DeveloperName = '"
             ++ metadataApiName this ++ "'")]).
Proof.
  destruct this as [v [u tf q] ext p api].
  cbn [variant metadataApiName conn tooling_find query pathParsed].
  intros -> Hfolder. run. rewrite Hfolder. branches; reflexivity.
Qed.

(** X6.  The RecordType resolver, for a file in an object folder, always
    issues both of its lookups: the custom object of the folder and the record
    type of the API name (by SOQL, whatever object it belongs to).  A missing
    object is reported first, even when the record type is missing too; then
    a missing record type; otherwise the URL joins the two first ids. *)
Theorem RecordType_url (host : Host) (this : Metadata) (folder : string) :
  variant this = RecordType ->
  objectFolderName host (pathParsed this) = Some folder ->
  let objects :=
    tooling_find (conn this) "CustomObject"
      [("DeveloperName", Utils.getObjectFieldDeveloperName folder)] in
  let soql :=
    "SELECT Id, DeveloperName FROM RecordType WHERE DeveloperName = '"
    ++ metadataApiName this ++ "'" in
  issued (getUrl host this)
  = [ToolingFind "CustomObject"
       [("DeveloperName", Utils.getObjectFieldDeveloperName folder)];
     Query soql] /\
  (objects = [] ->
   outcome (getUrl host this) = inl (Error ("Object not found for " ++ folder))) /\
  (objects <> [] -> query (conn this) soql = [] ->
   outcome (getUrl host this)
   = inl (Error ("RecordType not found for " ++ metadataApiName this))) /\
  (forall object rest r rest',
     objects = object :: rest -> query (conn this) soql = r :: rest' ->
     outcome (getUrl host this)
     = inr ("lightning/setup/ObjectManager/" ++ Id object ++ "/RecordTypes/"
            ++ Id r ++ "/view")).
Proof.
  intros Hv Hfolder objects soql. rewrite (RecordType_run host this folder Hv Hfolder).
  fold objects soql. unfold issued, outcome. cbn [fst snd].
  split; [reflexivity|]. split; [|split].
  - intros ->. reflexivity.
  - intros Hne Hq. rewrite Hq. destruct objects; [congruence | reflexivity].
  - intros object rest r rest' -> ->. reflexivity.
Qed.

Lemma RecordType_url_witness :
  outcome (getUrl posixHost
             (new RecordType emptyOrg "recordType-meta.xml"
                (mkParsedPath "force-app/main/default/objects/Account/recordTypes"
                   "Business.recordType-meta.xml")))
  = inl (Error "Object not found for Account").
Proof.
  exact (proj1 (proj2
           (RecordType_url posixHost
              (new RecordType emptyOrg "recordType-meta.xml"
                 (mkParsedPath "force-app/main/default/objects/Account/recordTypes"
                    "Business.recordType-meta.xml"))
              "Account" eq_refl eq_refl))
           eq_refl).
Defined.

Lemma split_two_names (a b : string) :
  JS.includes a "." = false -> JS.includes b "." = false ->
  JS.split (a ++ "." ++ b) "." = [a; b].
Proof.
  intros Ha Hb. change (a ++ "." ++ b) with (a ++ String "." b).
  now rewrite SplitFacts.split_char_app, (SplitFacts.split_absent _ _ Ha),
    (SplitFacts.split_absent _ _ Hb).
Qed.

(** X7.  A quick-action file '{object}.{action}.quickAction-meta.xml' (two
    names without a dot) is dispatched to the QuickAction resolver, which
    looks up the custom object of the first name and the quick-action
    definition whose developer name is the second; when both answer, the URL
    joins the two first ids. *)
Theorem QuickAction_file_url (host : Host) (c : Connection) (p : ParsedPath)
    (objectName actionName : string)
    (object : SRecord) (objects : list SRecord) (action : SRecord) (actions : list SRecord) :
  JS.includes objectName "." = false ->
  JS.includes actionName "." = false ->
  base p = (objectName ++ "." ++ actionName) ++ "." ++ "quickAction-meta.xml" ->
  tooling_find c "CustomObject"
    [("DeveloperName", Utils.getObjectFieldDeveloperName objectName)] = object :: objects ->
  tooling_find c "QuickActionDefinition" [("DeveloperName", Some actionName)]
  = action :: actions ->
  create c (getExtension (base p)) p = inr (new QuickAction c "quickAction-meta.xml" p) /\
  getUrl host (new QuickAction c "quickAction-meta.xml" p)
  = (inr ("lightning/setup/ObjectManager/" ++ Id object ++ "/ButtonsLinksActions/"
          ++ Id action ++ "/view"),
     [ToolingFind "CustomObject"
        [("DeveloperName", Utils.getObjectFieldDeveloperName objectName)];
      ToolingFind "QuickActionDefinition" [("DeveloperName", Some actionName)]]).
Proof.
  intros Ho Ha Hbase Hobject Haction.
  assert (Hapi : metadataApiName (new QuickAction c "quickAction-meta.xml" p)
                 = objectName ++ "." ++ actionName) by (now apply new_api_name).
  pose proof (split_two_names _ _ Ho Ha) as Hparts.
  split.
  - rewrite Hbase.
    now rewrite (getExtension_of_two_segment_token _ "quickAction-meta.xml"
                   "quickAction-meta" "xml" eq_refl).
  - assert (H0 : JS.item (JS.split (metadataApiName
                                      (new QuickAction c "quickAction-meta.xml" p)) ".") 0
                 = Some objectName) by (now rewrite Hapi, Hparts).
    rewrite (QuickAction_run (new QuickAction c "quickAction-meta.xml" p) host
               objectName eq_refl H0).
    rewrite Hapi, Hparts.
    change (JS.item [objectName; actionName] 1) with (Some actionName).
    cbn [conn new]. now rewrite Hobject, Haction.
Qed.

Lemma QuickAction_file_url_witness :
  getUrl posixHost
    (new QuickAction sampleOrg "quickAction-meta.xml"
       (mkParsedPath "force-app/main/default/quickActions"
          "Account.NewCase.quickAction-meta.xml"))
  = (inr "lightning/setup/ObjectManager/01I5g000000AAAA/ButtonsLinksActions/00N5g000000CCCC/view",
     [ToolingFind "CustomObject" [("DeveloperName", Some "Account")];
      ToolingFind "QuickActionDefinition" [("DeveloperName", Some "NewCase")]]).
Proof.
  exact (proj2
           (QuickAction_file_url posixHost sampleOrg
              (mkParsedPath "force-app/main/default/quickActions"
                 "Account.NewCase.quickAction-meta.xml")
              "Account" "NewCase"
              (mkRecord "01I5g000000AAAA" "") [mkRecord "01I5g000000BBBB" ""]
              (mkRecord "00N5g000000CCCC" "01I5g000000DDDD") [mkRecord "00N5g000000EEEE" ""]
              eq_refl eq_refl eq_refl eq_refl eq_refl)).
Defined.

(** X8.  An approval-process file '{object}.{process}.approvalProcess-meta.xml'
    is resolved by the process name alone: the only query is the SOQL on
    ProcessDefinition with that developer name and Type 'Approval', the
    object name not entering it; zero records give 'Approval process not
    found for {object}.{process}', otherwise the URL carries the first id. *)
Theorem ApprovalProcess_file_url (host : Host) (c : Connection) (p : ParsedPath)
    (objectName processName : string) :
  JS.includes objectName "." = false ->
  JS.includes processName "." = false ->
  base p = (objectName ++ "." ++ processName) ++ "." ++ "approvalProcess-meta.xml" ->
  let soql := "SELECT Id FROM ProcessDefinition WHERE DeveloperName = '"
              ++ processName ++ "' AND Type = 'Approval'" in
  create c (getExtension (base p)) p
  = inr (new ApprovalProcess c "approvalProcess-meta.xml" p) /\
  issued (getUrl host (new ApprovalProcess c "approvalProcess-meta.xml" p)) = [Query soql] /\
  (query c soql = [] ->
   outcome (getUrl host (new ApprovalProcess c "approvalProcess-meta.xml" p))
   = inl (Error ("Approval process not found for " ++ objectName ++ "." ++ processName))) /\
  (forall r rest, query c soql = r :: rest ->
   outcome (getUrl host (new ApprovalProcess c "approvalProcess-meta.xml" p))
   = inr ("lightning/setup/ApprovalProcesses/page?address=%2F" ++ Id r)).
Proof.
  intros Ho Hp Hbase soql.
  assert (Hapi : metadataApiName (new ApprovalProcess c "approvalProcess-meta.xml" p)
                 = objectName ++ "." ++ processName) by (now apply new_api_name).
  pose proof (split_two_names _ _ Ho Hp) as Hparts.
  split.
  - rewrite Hbase.
    now rewrite (getExtension_of_two_segment_token _ "approvalProcess-meta.xml"
                   "approvalProcess-meta" "xml" eq_refl).
  - rewrite (ApprovalProcess_run (new ApprovalProcess c "approvalProcess-meta.xml" p)
               host eq_refl).
    rewrite Hapi, Hparts.
    change (JS.tpl (JS.item [objectName; processName] 1)) with processName.
    fold soql. cbn [conn new]. unfold issued, outcome. cbn [fst snd].
    split; [reflexivity|]. split.
    + intros ->. reflexivity.
    + intros r rest ->. reflexivity.
Qed.

Lemma ApprovalProcess_file_url_witness :
  issued (getUrl posixHost
            (new ApprovalProcess emptyOrg "approvalProcess-meta.xml"
               (mkParsedPath "force-app/main/default/approvalProcesses"
                  "Opportunity.Discount.approvalProcess-meta.xml")))
  = [Query "SELECT Id FROM ProcessDefinition WHERE DeveloperName = 'Discount' AND Type = 'Approval'"] /\
  outcome (getUrl posixHost
             (new ApprovalProcess emptyOrg "approvalProcess-meta.xml"
                (mkParsedPath "force-app/main/default/approvalProcesses"
                   "Opportunity.Discount.approvalProcess-meta.xml")))
  = inl (Error "Approval process not found for Opportunity.Discount").
Proof.
  pose proof (ApprovalProcess_file_url posixHost emptyOrg
                (mkParsedPath "force-app/main/default/approvalProcesses"
                   "Opportunity.Discount.approvalProcess-meta.xml")
                "Opportunity" "Discount" eq_refl eq_refl eq_refl) as H.
  exact (conj (proj1 (proj2 H)) (proj1 (proj2 (proj2 H)) eq_refl)).
Defined.

(** X9.  Except for custom fields, what a resolver asks the org does not
    depend on what the org answers: the same queries are issued, in the same
    order, against any two orgs.  (The lookups of a record type, a layout and
    a quick action are started together; the Field resolver alone keys its
    second lookup by the answer to the first.) *)
Theorem queries_independent_of_answers (host : Host) (this : Metadata) (c' : Connection) :
  variant this <> Field ->
  issued (getUrl host (withConn c' this)) = issued (getUrl host this).
Proof.
  destruct this as [v [u tf q] ext p api]. destruct c' as [u' tf' q'].
  cbn [variant]. intros Hv.
  destruct v; try congruence; branches; reflexivity.
Qed.

Lemma queries_independent_of_answers_witness :
  issued (getUrl posixHost
            (withConn emptyOrg (new PageLayout sampleOrg "layout-meta.xml" layoutFile)))
  = issued (getUrl posixHost (new PageLayout sampleOrg "layout-meta.xml" layoutFile)).
Proof.
  apply queries_independent_of_answers. discriminate.
Defined.

Lemma Field_custom_cases (host : Host) (this : Metadata) :
  variant this = Field ->
  Utils.isStandardField (metadataApiName this) = false ->
  getUrl host this
  = match objectFolderName host (pathParsed this) with
    | None => (inl TypeError, [])
    | Some folder =>
        match tooling_find (conn this) "CustomObject"
                [("DeveloperName", Utils.getObjectFieldDeveloperName folder)] with
        | [] =>
            (inl (Error ("Object not found for " ++ folder)),
             [ToolingFind "CustomObject"
                [("DeveloperName", Utils.getObjectFieldDeveloperName folder)]])
        | object :: _ =>
            (match tooling_find (conn this) "CustomField"
                     [("DeveloperName",
                       Utils.getObjectFieldDeveloperName (metadataApiName this));
                      ("TableEnumOrId", Some (Id object))] with
             | [] =>
                 inl (Error ("Field not found for "
                             ++ JS.tpl (Utils.getObjectFieldDeveloperName
                                          (metadataApiName this))))
             | field :: _ =>
                 inr (if Utils.isCustomMetadata folder then
                        "lightning/setup/CustomMetadata/page?address=%2F" ++ Id field
                        ++ "%3Fsetupid%3DCustomMetadata"
                      else if Utils.isPlatformEvent folder then
                        "lightning/setup/EventObjects/page?address=%2F" ++ Id field
                        ++ "%3Fsetupid%3DEventObjects"
                      else
                        "lightning/setup/ObjectManager/" ++ Id object
                        ++ "/FieldsAndRelationships/" ++ Id field ++ "/view")
             end,
             [ToolingFind "CustomObject"
                [("DeveloperName", Utils.getObjectFieldDeveloperName folder)];
              ToolingFind "CustomField"
                [("DeveloperName", Utils.getObjectFieldDeveloperName (metadataApiName this));
                 ("TableEnumOrId", Some (Id object))]])
        end
    end.
Proof.
  destruct this as [v [u tf q] ext p api].
  cbn [variant metadataApiName conn tooling_find pathParsed].
  intros -> Hstd. run. rewrite Hstd. branches; reflexivity.
Qed.

(** X10.  A custom field of a custom metadata type or of a platform event
    (the object folder ends in '__mdt' or '__e') gets the URL of the
    custom-metadata or event-object page, built from the id of the field
    alone; the object id is still looked up, and is part of the URL only for
    the fields of other objects. *)
Theorem Field_custom_owner_pages (host : Host) (this : Metadata) (folder : string)
    (object : SRecord) (objects : list SRecord) (field : SRecord) (fields : list SRecord) :
  variant this = Field ->
  (exists x, metadataApiName this = x ++ "__c") ->
  objectFolderName host (pathParsed this) = Some folder ->
  tooling_find (conn this) "CustomObject"
    [("DeveloperName", Utils.getObjectFieldDeveloperName folder)] = object :: objects ->
  tooling_find (conn this) "CustomField"
    [("DeveloperName", Utils.getObjectFieldDeveloperName (metadataApiName this));
     ("TableEnumOrId", Some (Id object))] = field :: fields ->
  ((exists x, folder = x ++ "__mdt") ->
   outcome (getUrl host this)
   = inr ("lightning/setup/CustomMetadata/page?address=%2F" ++ Id field
          ++ "%3Fsetupid%3DCustomMetadata")) /\
  ((exists x, folder = x ++ "__e") ->
   outcome (getUrl host this)
   = inr ("lightning/setup/EventObjects/page?address=%2F" ++ Id field
          ++ "%3Fsetupid%3DEventObjects")) /\
  (~ (exists x, folder = x ++ "__mdt") -> ~ (exists x, folder = x ++ "__e") ->
   outcome (getUrl host this)
   = inr ("lightning/setup/ObjectManager/" ++ Id object
          ++ "/FieldsAndRelationships/" ++ Id field ++ "/view")).
Proof.
  intros Hv Hc Hfolder Hobject Hfield.
  assert (Hstd : Utils.isStandardField (metadataApiName this) = false).
  { unfold Utils.isStandardField. apply negb_false_iff. now apply JSFacts.endsWith_spec. }
  rewrite (Field_custom_cases host this Hv Hstd), Hfolder, Hobject, Hfield.
  unfold outcome. cbn [fst]. unfold Utils.isCustomMetadata. split; [|split].
  - intros H. apply JSFacts.endsWith_spec in H. now rewrite H.
  - intros H. apply JSFacts.endsWith_spec in H.
    pose proof (platformEvent_not_customMetadata _ H) as Hm.
    unfold Utils.isCustomMetadata in Hm. unfold Utils.isPlatformEvent. now rewrite Hm, H.
  - intros Hm He. apply JSFacts.endsWith_false in Hm, He.
    unfold Utils.isPlatformEvent. now rewrite Hm, He.
Qed.

Lemma Field_custom_owner_pages_witness :
  outcome (getUrl posixHost
             (new Field sampleOrg "field-meta.xml"
                (mkParsedPath "force-app/main/default/objects/Order_Event__e/fields"
                   "Amount__c.field-meta.xml")))
  = inr "lightning/setup/EventObjects/page?address=%2F00N5g000000CCCC%3Fsetupid%3DEventObjects".
Proof.
  exact (proj1 (proj2
           (Field_custom_owner_pages posixHost
              (new Field sampleOrg "field-meta.xml"
                 (mkParsedPath "force-app/main/default/objects/Order_Event__e/fields"
                    "Amount__c.field-meta.xml"))
              "Order_Event__e"
              (mkRecord "01I5g000000AAAA" "") [mkRecord "01I5g000000BBBB" ""]
              (mkRecord "00N5g000000CCCC" "01I5g000000DDDD") [mkRecord "00N5g000000EEEE" ""]
              eq_refl (ex_intro _ "Amount" eq_refl) eq_refl eq_refl eq_refl))
           (ex_intro _ "Order_Event" eq_refl)).
Defined.

(** X11.  The Field resolver works in sequence on a custom field.  Outside an
    object folder it stops on the runtime's [TypeError] before any lookup;
    when the object is not found it fails with 'Object not found for
    {folder}' and the field is never looked up; otherwise the field lookup
    is keyed by the developer name of the field and the id of the first
    object record, and an empty answer gives 'Field not found for {developer
    name}'. *)
Theorem Field_custom_in_sequence (host : Host) (this : Metadata) :
  variant this = Field ->
  (exists x, metadataApiName this = x ++ "__c") ->
  (objectFolderName host (pathParsed this) = None ->
   getUrl host this = (inl TypeError, [])) /\
  (forall folder,
     objectFolderName host (pathParsed this) = Some folder ->
     tooling_find (conn this) "CustomObject"
       [("DeveloperName", Utils.getObjectFieldDeveloperName folder)] = [] ->
     getUrl host this
     = (inl (Error ("Object not found for " ++ folder)),
        [ToolingFind "CustomObject"
           [("DeveloperName", Utils.getObjectFieldDeveloperName folder)]])) /\
  (forall folder object objects,
     objectFolderName host (pathParsed this) = Some folder ->
     tooling_find (conn this) "CustomObject"
       [("DeveloperName", Utils.getObjectFieldDeveloperName folder)] = object :: objects ->
     issued (getUrl host this)
     = [ToolingFind "CustomObject"
          [("DeveloperName", Utils.getObjectFieldDeveloperName folder)];
        ToolingFind "CustomField"
          [("DeveloperName", Utils.getObjectFieldDeveloperName (metadataApiName this));
           ("TableEnumOrId", Some (Id object))]] /\
     (tooling_find (conn this) "CustomField"
        [("DeveloperName", Utils.getObjectFieldDeveloperName (metadataApiName this));
         ("TableEnumOrId", Some (Id object))] = [] ->
      outcome (getUrl host this)
      = inl (Error ("Field not found for "
                    ++ JS.tpl (Utils.getObjectFieldDeveloperName (metadataApiName this)))))).
Proof.
  intros Hv Hc.
  assert (Hstd : Utils.isStandardField (metadataApiName this) = false).
  { unfold Utils.isStandardField. apply negb_false_iff. now apply JSFacts.endsWith_spec. }
  rewrite (Field_custom_cases host this Hv Hstd). split; [|split].
  - intros ->. reflexivity.
  - intros folder -> ->. reflexivity.
  - intros folder object objects -> ->. unfold issued, outcome. cbn [fst snd].
    split; [reflexivity|]. intros ->. reflexivity.
Qed.

Lemma Field_custom_in_sequence_witness :
  getUrl posixHost (new Field emptyOrg "field-meta.xml" customFieldFile)
  = (inl (Error "Object not found for Account"),
     [ToolingFind "CustomObject" [("DeveloperName", Some "Account")]]).
Proof.
  exact (proj1 (proj2
           (Field_custom_in_sequence posixHost
              (new Field emptyOrg "field-meta.xml" customFieldFile)
              eq_refl (ex_intro _ "MyField" eq_refl)))
           "Account" eq_refl eq_refl).
Defined.

(** X12.  Only the Field, RecordType and PageLayout resolvers look at where
    the file lies or at the host: for every other resolver the run is fixed
    by the class, the org and the API name, whatever the directory, the
    platform and the separator are. *)
Theorem resolution_by_name_alone (host host' : Host) (this this' : Metadata) :
  variant this <> Field -> variant this <> RecordType -> variant this <> PageLayout ->
  variant this' = variant this ->
  conn this' = conn this ->
  metadataApiName this' = metadataApiName this ->
  getUrl host' this' = getUrl host this.
Proof.
  destruct this as [v c ext p api], this' as [v' c' ext' p' api'].
  cbn [variant conn metadataApiName]. intros Hf Hr Hl -> -> ->.
  destruct v; try congruence; reflexivity.
Qed.

Lemma resolution_by_name_alone_witness :
  getUrl windowsHost (new Flow sampleOrg "flow-meta.xml" (mkParsedPath "" "MyFlow.flow-meta.xml"))
  = getUrl posixHost (new Flow sampleOrg "flow-meta.xml" flowFile).
Proof.
  apply resolution_by_name_alone; first [discriminate | reflexivity].
Defined.

(** X13.  A validation-rule file '{name}.validationRule-meta.xml' is
    dispatched to the ValidationRule resolver, which looks the rule up by
    ValidationName alone; the object in the URL is the EntityDefinitionId of
    the first record found, not the folder the file lies in. *)
Theorem ValidationRule_file_url (host : Host) (c : Connection) (p : ParsedPath)
    (name : string) (rule : SRecord) (rules : list SRecord) :
  base p = name ++ "." ++ "validationRule-meta.xml" ->
  tooling_find c "ValidationRule" [("ValidationName", Some name)] = rule :: rules ->
  create c (getExtension (base p)) p
  = inr (new ValidationRule c "validationRule-meta.xml" p) /\
  getUrl host (new ValidationRule c "validationRule-meta.xml" p)
  = (inr ("lightning/setup/ObjectManager/" ++ EntityDefinitionId rule
          ++ "/ValidationRules/" ++ Id rule ++ "/view"),
     [ToolingFind "ValidationRule" [("ValidationName", Some name)]]).
Proof.
  intros Hbase Hrule.
  assert (Hapi : metadataApiName (new ValidationRule c "validationRule-meta.xml" p) = name)
    by (now apply new_api_name).
  split.
  - rewrite Hbase.
    now rewrite (getExtension_of_two_segment_token _ "validationRule-meta.xml"
                   "validationRule-meta" "xml" eq_refl).
  - unfold getUrl. cbn [variant new]. unfold ValidationRule_getUrl, lookupByName.
    fold (new ValidationRule c "validationRule-meta.xml" p). rewrite Hapi.
    cbn [conn new]. unfold find, bind, emit, ret. cbn [app].
    rewrite Hrule. reflexivity.
Qed.

Lemma ValidationRule_file_url_witness :
  getUrl posixHost
    (new ValidationRule sampleOrg "validationRule-meta.xml"
       (mkParsedPath "force-app/main/default/objects/Account/validationRules"
          "Require_Phone.validationRule-meta.xml"))
  = (inr "lightning/setup/ObjectManager/01I5g000000DDDD/ValidationRules/00N5g000000CCCC/view",
     [ToolingFind "ValidationRule" [("ValidationName", Some "Require_Phone")]]).
Proof.
  exact (proj2
           (ValidationRule_file_url posixHost sampleOrg
              (mkParsedPath "force-app/main/default/objects/Account/validationRules"
                 "Require_Phone.validationRule-meta.xml")
              "Require_Phone"
              (mkRecord "00N5g000000CCCC" "01I5g000000DDDD") [mkRecord "00N5g000000EEEE" ""]
              eq_refl eq_refl)).
Defined.

(* ------------------------------------------------------------------------- *)
(** ** Further properties: the launcher and the command                      *)
(* ------------------------------------------------------------------------- *)

Lemma getUrl_at_most_two (host : Host) (this : Metadata) :
  (List.length (issued (getUrl host this)) <= 2)%nat.
Proof.
  destruct this as [v [u tf q] ext p api].
  destruct v; branches; cbn [List.length]; lia.
Qed.

Lemma only_queries_forallb (evs : list Event) :
  (forall ev, In ev evs -> isExec ev = false) -> forallb isQuery evs = true.
Proof.
  intros H. apply forallb_forall. intros ev Hin. unfold isQuery. now rewrite (H ev Hin).
Qed.

(** The command [go] launches for a relative URL. *)
Lemma go_run (host : Host) (c : Connection) (pathString : string) :
  go host c pathString
  = match resolve host c pathString with
    | (inl e, evs) => (inl e, evs)
    | (inr url, evs) =>
        let command :=
          (if String.eqb (process_platform host) "win32" then "start" else "open")
          ++ " " ++ instanceUrl c ++ "/" ++ url in
        (match exec_result host command with
         | Some e => inl e
         | None => inr tt
         end,
         (evs ++ [Exec command])%list)
    end.
Proof.
  unfold go, resolve, Utils.isWindows.
  destruct (create c (getExtension (base (path_parse host pathString)))
              (path_parse host pathString)) as [e0 | metadata]; [reflexivity|].
  unfold attempt, bind, execPromise, emit, ret, throw.
  destruct (getUrl host metadata) as [[e1 | url1] evs]; cbn [fst snd app]; [reflexivity|].
  destruct (String.eqb (process_platform host) "win32");
    destruct (exec_result host _); reflexivity.
Qed.

Lemma resolve_queries (host : Host) (c : Connection) (pathString : string) :
  (List.length (issued (resolve host c pathString)) <= 2)%nat /\
  forallb isQuery (issued (resolve host c pathString)) = true.
Proof.
  unfold resolve.
  destruct (create c (getExtension (base (path_parse host pathString)))
              (path_parse host pathString)) as [e0 | metadata].
  - cbn. split; [lia | reflexivity].
  - pose proof (getUrl_at_most_two host metadata) as Hlen.
    pose proof (only_queries_forallb _ (getUrl_only_queries host metadata)) as Hq.
    unfold attempt, bind, issued in *.
    destruct (getUrl host metadata) as [r evs]. cbn [fst snd app] in *. now split.
Qed.

(** X14.  One invocation of [go] costs the org at most two queries and the
    host at most one command: its events are the queries of the resolution,
    never more than two, followed by the launch command or by nothing. *)
Theorem go_effects_bounded (host : Host) (c : Connection) (pathString : string) :
  exists queries launch,
    issued (go host c pathString) = (queries ++ launch)%list /\
    (List.length queries <= 2)%nat /\
    forallb isQuery queries = true /\
    (launch = [] \/ exists command, launch = [Exec command]).
Proof.
  rewrite go_run. destruct (resolve_queries host c pathString) as [Hlen Hq].
  unfold issued in *.
  destruct (resolve host c pathString) as [[e | url] evs]; cbn [fst snd] in *.
  - exists evs, []. rewrite app_nil_r. repeat split; try assumption. now left.
  - eexists evs, [Exec _]. repeat split; try assumption. right. eexists. reflexivity.
Qed.

(** X15.  [go] succeeds exactly when the resolution returned a URL and the
    launch command succeeded.  When the command fails, [go] fails with the
    command's exception, after the queries and the command were issued. *)
Theorem go_outcome (host : Host) (c : Connection) (pathString : string) :
  let launch url :=
    (if String.eqb (process_platform host) "win32" then "start" else "open")
    ++ " " ++ instanceUrl c ++ "/" ++ url in
  (outcome (go host c pathString) = inr tt <->
   exists url, outcome (resolve host c pathString) = inr url /\
               exec_result host (launch url) = None) /\
  (forall url e,
     outcome (resolve host c pathString) = inr url ->
     exec_result host (launch url) = Some e ->
     go host c pathString
     = (inl e, (issued (resolve host c pathString) ++ [Exec (launch url)])%list)).
Proof.
  intros launch. rewrite go_run. unfold outcome, issued.
  destruct (resolve host c pathString) as [[e0 | url0] evs]; cbn [fst snd].
  - split.
    + split; [discriminate|]. intros (url & H & _). discriminate H.
    + intros url e H. discriminate H.
  - fold (launch url0). split.
    + split.
      * intros H. exists url0. split; [reflexivity|].
        destruct (exec_result host (launch url0)); [discriminate H | reflexivity].
      * intros (url & H & Hexec). injection H as <-. now rewrite Hexec.
    + intros url e H Hexec. injection H as <-. now rewrite Hexec.
Qed.

Lemma run_of_go (host : Host) (rt : MetaGo.RuntimeMessages) (c : Connection)
    (metadata : string) :
  MetaGo.run host rt c metadata
  = match go host c metadata with
    | (inr _, evs) => (MetaGo.mkMetaGoResult true None, map MetaGo.Effect evs)
    | (inl e, evs) =>
        (MetaGo.mkMetaGoResult false (Some (MetaGo.message rt e)),
         (map MetaGo.Effect evs
          ++ [MetaGo.Log ("Error to open Metadata: " ++ MetaGo.message rt e)])%list)
    end.
Proof.
  reflexivity.
Qed.

(** X16.  The command on a file of a type that is not supported: whatever
    the org, it asks nothing and launches nothing, logs 'Error to open
    Metadata: Unsupported metadata type' and returns a failure with that
    message; on a file whose name ends in a dot the message is 'Invalid
    parameters'. *)
Theorem run_unsupported_file (host : Host) (rt : MetaGo.RuntimeMessages)
    (c : Connection) (metadata token : string) :
  getExtension (base (path_parse host metadata)) = Some token ->
  ~ registered token ->
  (token <> EmptyString ->
   MetaGo.run host rt c metadata
   = (MetaGo.mkMetaGoResult false (Some "Unsupported metadata type"),
      [MetaGo.Log "Error to open Metadata: Unsupported metadata type"])) /\
  (token = EmptyString ->
   MetaGo.run host rt c metadata
   = (MetaGo.mkMetaGoResult false (Some "Invalid parameters"),
      [MetaGo.Log "Error to open Metadata: Invalid parameters"])).
Proof.
  intros Hext Hreg. rewrite run_of_go, go_run. unfold resolve. rewrite Hext. split.
  - intros Hne. now rewrite (create_unregistered c _ token Hreg Hne).
  - intros ->. reflexivity.
Qed.

Lemma run_unsupported_file_witness :
  MetaGo.run posixHost v8Messages sampleOrg "README.md"
  = (MetaGo.mkMetaGoResult false (Some "Unsupported metadata type"),
     [MetaGo.Log "Error to open Metadata: Unsupported metadata type"]).
Proof.
  refine (proj1 (run_unsupported_file posixHost v8Messages sampleOrg "README.md" "md"
                   eq_refl _) _).
  - unfold registered, registeredTokens. cbn [map fst In].
    intros H. repeat (destruct H as [H | H]; [discriminate H|]). exact H.
  - discriminate.
Defined.

(** X17.  The command on a flow file '{name}.flow-meta.xml'.  When the org
    has no flow definition of that developer name, the result is a failure
    with the error 'Flow not found for {name}', the same message is logged
    after 'Error to open Metadata: ', and no command is launched.  When it
    has one and the launch command succeeds, the result is a success without
    error, nothing is logged, and the command opens
    '{instanceUrl}/lightning/setup/Flows/page?address=%2F{id}'. *)
Theorem run_on_flow_file (host : Host) (rt : MetaGo.RuntimeMessages)
    (c : Connection) (metadata name : string) :
  base (path_parse host metadata) = name ++ "." ++ "flow-meta.xml" ->
  let lookup := ToolingFind "FlowDefinition" [("DeveloperName", Some name)] in
  let launch url :=
    (if String.eqb (process_platform host) "win32" then "start" else "open")
    ++ " " ++ instanceUrl c ++ "/" ++ url in
  (response c lookup = [] ->
   MetaGo.run host rt c metadata
   = (MetaGo.mkMetaGoResult false (Some ("Flow not found for " ++ name)),
      [MetaGo.Effect lookup;
       MetaGo.Log ("Error to open Metadata: Flow not found for " ++ name)])) /\
  (forall flow flows,
     response c lookup = flow :: flows ->
     exec_result host (launch ("lightning/setup/Flows/page?address=%2F" ++ Id flow)) = None ->
     MetaGo.run host rt c metadata
     = (MetaGo.mkMetaGoResult true None,
        [MetaGo.Effect lookup;
         MetaGo.Effect
           (Exec (launch ("lightning/setup/Flows/page?address=%2F" ++ Id flow)))])).
Proof.
  intros Hbase lookup launch. rewrite run_of_go, go_run. unfold resolve.
  assert (Hext : getExtension (base (path_parse host metadata)) = Some "flow-meta.xml").
  { rewrite Hbase.
    now apply (getExtension_of_two_segment_token name "flow-meta.xml" "flow-meta" "xml"). }
  rewrite Hext.
  assert (Hapi : metadataApiName (new Flow c "flow-meta.xml" (path_parse host metadata))
                 = name) by (now apply new_api_name).
  change (create c (Some "flow-meta.xml") (path_parse host metadata))
    with (@inr Exception Metadata (new Flow c "flow-meta.xml" (path_parse host metadata))).
  unfold attempt, bind, getUrl. cbn [variant new].
  unfold Flow_getUrl, lookupByName.
  fold (new Flow c "flow-meta.xml" (path_parse host metadata)). rewrite Hapi.
  cbn [conn new]. unfold find, bind, emit, ret, throw. cbn [app].
  subst lookup. cbn [response]. split.
  - intros ->. reflexivity.
  - intros flow flows -> Hexec. cbn [app]. fold (launch ("lightning/setup/Flows/page?address=%2F" ++ Id flow)).
    rewrite Hexec. reflexivity.
Qed.

Lemma run_on_flow_file_witness :
  MetaGo.run posixHost v8Messages emptyOrg "force-app/main/default/flows/MyFlow.flow-meta.xml"
  = (MetaGo.mkMetaGoResult false (Some "Flow not found for MyFlow"),
     [MetaGo.Effect (ToolingFind "FlowDefinition" [("DeveloperName", Some "MyFlow")]);
      MetaGo.Log "Error to open Metadata: Flow not found for MyFlow"]).
Proof.
  exact (proj1 (run_on_flow_file posixHost v8Messages emptyOrg
                  "force-app/main/default/flows/MyFlow.flow-meta.xml" "MyFlow" eq_refl)
           eq_refl).
Defined.

(** X18.  The command never throws: its result is a success exactly when
    [go] completed, that is when the resolution returned a URL and the
    launch command succeeded; then nothing is logged.  Otherwise the result
    carries the message of the exception and exactly one line is logged,
    after everything [go] did. *)
Theorem run_reports_go (host : Host) (rt : MetaGo.RuntimeMessages)
    (c : Connection) (metadata : string) :
  let launch url :=
    (if String.eqb (process_platform host) "win32" then "start" else "open")
    ++ " " ++ instanceUrl c ++ "/" ++ url in
  (MetaGo.isSuccess (fst (MetaGo.run host rt c metadata)) = true <->
   exists url, outcome (resolve host c metadata) = inr url /\
               exec_result host (launch url) = None) /\
  (MetaGo.isSuccess (fst (MetaGo.run host rt c metadata)) = true ->
   MetaGo.error (fst (MetaGo.run host rt c metadata)) = None /\
   snd (MetaGo.run host rt c metadata) = map MetaGo.Effect (issued (go host c metadata))) /\
  (MetaGo.isSuccess (fst (MetaGo.run host rt c metadata)) = false ->
   exists e,
     outcome (go host c metadata) = inl e /\
     MetaGo.error (fst (MetaGo.run host rt c metadata)) = Some (MetaGo.message rt e) /\
     snd (MetaGo.run host rt c metadata)
     = (map MetaGo.Effect (issued (go host c metadata))
        ++ [MetaGo.Log ("Error to open Metadata: " ++ MetaGo.message rt e)])%list).
Proof.
  intros launch. rewrite run_of_go. rewrite go_run. unfold outcome, issued.
  destruct (resolve host c metadata) as [[e0 | url0] evs]; cbn [fst snd].
  - cbn [MetaGo.isSuccess MetaGo.error]. split; [|split].
    + split; [discriminate|]. intros (url & H & _). discriminate H.
    + discriminate.
    + intros _. exists e0. repeat split.
  - fold (launch url0).
    destruct (exec_result host (launch url0)) as [e1|] eqn:Hexec;
      cbn [fst snd MetaGo.isSuccess MetaGo.error]; (split; [|split]).
    + split; [discriminate|]. intros (url & H & Hnone). injection H as <-. congruence.
    + discriminate.
    + intros _. exists e1. repeat split.
    + split; [|reflexivity]. intros _. exists url0. now split.
    + intros _. split; reflexivity.
    + discriminate.
Qed.
